(** * ChatKit session proxy: a shallow embedding of [api/create-session.py]

    The repository is one serverless HTTP handler.  Its [do_POST] reads the
    process environment, the request headers and body, calls the upstream
    session API once and translates the outcome into an HTTP response.

    The embedding keeps the shape of the source:
    - Python values that flow through the handler (the decoded request body,
      the decoded upstream bodies, the workflow id) are values of [json];
    - Python dictionaries are [gmap string json];
    - header strings are [string]s whose characters are Latin-1 code points,
      which is how [http.server] decodes them;
    - everything the handler obtains from outside the repository
      ([os.getenv], [int], [json.loads], [uuid.uuid4], the check of the URL
      by [urllib.request.Request], [urlopen], the memory [rfile.read] can
      allocate) is a field of the record [World];
    - an exception that no [except] clause of the handler catches is the
      outcome [Unhandled]; writing the response to [wfile] and serialising
      with [json.dumps] are taken to succeed. *)

From Stdlib Require Import ZArith Ascii String List Lia DecimalString.
From Stdlib Require Import Floats.SpecFloat.
From stdpp Require Import base option list strings gmap fin_maps.

#[local] Set Warnings "-register-all".
#[local] Open Scope Z_scope.

(** ** Python strings *)

Module PyStr.

(** [str.isspace] on the code points below 256: TAB, LF, VT, FF, CR,
    FS, GS, RS, US, SPACE, NEL (0x85) and NBSP (0xA0). *)
Definition isspace (c : ascii) : bool :=
  let n := nat_of_ascii c in
  ((9 <=? n)%nat && (n <=? 13)%nat)
  || ((28 <=? n)%nat && (n <=? 32)%nat)
  || (n =? 133)%nat || (n =? 160)%nat.

(** [s.lstrip()] *)
Fixpoint lstrip (s : string) : string :=
  match s with
  | EmptyString => EmptyString
  | String c s' => if isspace c then lstrip s' else s
  end.

(** [s.rstrip()] *)
Fixpoint rstrip (s : string) : string :=
  match s with
  | EmptyString => EmptyString
  | String c s' =>
      match rstrip s' with
      | EmptyString => if isspace c then EmptyString else String c EmptyString
      | r => String c r
      end
  end.

(** [s.strip()] *)
Definition strip (s : string) : string := rstrip (lstrip s).

(** [s.split(sep)] for a one-character separator: never the empty list. *)
Fixpoint split (sep : ascii) (s : string) : list string :=
  match s with
  | EmptyString => [EmptyString]
  | String c s' =>
      if Ascii.eqb c sep then EmptyString :: split sep s'
      else match split sep s' with
           | [] => [String c EmptyString]
           | x :: xs => String c x :: xs
           end
  end.

(** The text before and after the first [sep] of [s], if there is one. *)
Fixpoint partition (sep : ascii) (s : string) : option (string * string) :=
  match s with
  | EmptyString => None
  | String c s' =>
      if Ascii.eqb c sep then Some (EmptyString, s')
      else match partition sep s' with
           | Some (a, b) => Some (String c a, b)
           | None => None
           end
  end.

(** [s.split(sep, 1)] for a one-character separator. *)
Definition split1 (sep : ascii) (s : string) : list string :=
  match partition sep s with
  | Some (a, b) => [a; b]
  | None => [s]
  end.

(** [s.startswith(p)] *)
Definition startswith (p s : string) : bool := String.prefix p s.

(** [needle in s] for two strings. *)
Fixpoint contains (needle s : string) : bool :=
  String.prefix needle s
  || match s with
     | EmptyString => false
     | String _ s' => contains needle s'
     end.

(** ASCII lower-casing of one character and of a string, for the
    case-insensitive header names of [email.message.Message]. *)
Definition lower_ascii (c : ascii) : ascii :=
  let n := nat_of_ascii c in
  if ((65 <=? n)%nat && (n <=? 90)%nat) then ascii_of_nat (n + 32) else c.

Fixpoint lower (s : string) : string :=
  match s with
  | EmptyString => EmptyString
  | String c s' => String (lower_ascii c) (lower s')
  end.

End PyStr.

(** ** The cookie lookup, [handler.get_cookie_value] *)

(** The loop body of [get_cookie_value] over the pieces of
    [cookie_header.split(';')].  [None] is Python's [None].  The index [[1]]
    is read with the default [""]: [startswith_split1] below shows that the
    list has two elements whenever the test succeeds, so the [IndexError]
    cannot happen. *)
Fixpoint get_cookie_loop (cookies : list string) (name : string)
  : option string :=
  match cookies with
  | [] => None
  | cookie :: rest =>
      let cookie := PyStr.strip cookie in
      if PyStr.startswith (name +:+ "=") cookie
      then Some (nth 1 (PyStr.split1 "=" cookie) EmptyString)
      else get_cookie_loop rest name
  end.

Definition get_cookie_value (cookie_header name : string) : option string :=
  get_cookie_loop (PyStr.split ";" cookie_header) name.

(** ** Python values *)

(** The values [json.loads] produces, which are also the values
    [json.dumps] is given: [None], [bool], [int], [float], [str], [list]
    and [dict] with string keys. *)
Inductive json : Type :=
| JNull
| JBool (b : bool)
| JInt (z : Z)
| JFloat (f : spec_float)
| JStr (s : string)
| JArr (l : list json)
| JObj (m : gmap string json).

(** Python truthiness, the test behind [not x] and [x or y]. *)
Definition truthy (v : json) : bool :=
  match v with
  | JNull => false
  | JBool b => b
  | JInt z => negb (z =? 0)
  | JFloat (S754_zero _) => false
  | JFloat _ => true
  | JStr s => negb (String.length s =? 0)%nat
  | JArr l => negb (length l =? 0)%nat
  | JObj m => negb (size m =? 0)%nat
  end.

(** The value of an optional string such as the result of [os.getenv]. *)
Definition of_opt_str (o : option string) : json :=
  match o with
  | Some s => JStr s
  | None => JNull
  end.

Definition is_dict (v : json) : bool :=
  match v with JObj _ => true | _ => false end.

(** [type(v).__name__] *)
Definition type_name (v : json) : string :=
  match v with
  | JNull => "NoneType"
  | JBool _ => "bool"
  | JInt _ => "int"
  | JFloat _ => "float"
  | JStr _ => "str"
  | JArr _ => "list"
  | JObj _ => "dict"
  end.

(** ** Exceptions and fallible evaluation *)

Inductive exc_class :=
| TypeError | AttributeError | KeyError
| ValueError | RecursionError | OverflowError | MemoryError.

(** An exception: its class and [str(e)].  The [TypeError] texts are those
    of CPython 3.12; no response of the handler shows them. *)
Record pyexc := Exc { exc_cls : exc_class; exc_str : string }.

Inductive result (A : Type) : Type :=
| Ok (a : A)
| Raise (e : pyexc).
Arguments Ok {A} a.
Arguments Raise {A} e.

#[global] Instance result_ret : MRet result := λ A, Ok.
#[global] Instance result_bind : MBind result := λ A B k r,
  match r with
  | Ok a => k a
  | Raise e => Raise e
  end.

(** [key in v] *)
Definition py_contains (key : string) (v : json) : result bool :=
  match v with
  | JObj m => Ok (bool_decide (is_Some (m !! key)))
  | JArr l =>
      Ok (existsb (fun x => match x with
                            | JStr s => String.eqb s key
                            | _ => false
                            end) l)
  | JStr s => Ok (PyStr.contains key s)
  | _ => Raise (Exc TypeError
                  ("argument of type '" +:+ type_name v +:+ "' is not iterable"))
  end.

(** [v[key]] for a string [key] *)
Definition py_getitem (v : json) (key : string) : result json :=
  match v with
  | JObj m =>
      match m !! key with
      | Some x => Ok x
      | None => Raise (Exc KeyError ("'" +:+ key +:+ "'"))
      end
  | JArr _ =>
      Raise (Exc TypeError "list indices must be integers or slices, not str")
  | JStr _ =>
      Raise (Exc TypeError "string indices must be integers, not 'str'")
  | _ => Raise (Exc TypeError
                  ("'" +:+ type_name v +:+ "' object is not subscriptable"))
  end.

(** [v.get(key, default)]; [dict] is the only one of these types that has
    a [get] attribute. *)
Definition py_get (v : json) (key : string) (default : json) : result json :=
  match v with
  | JObj m => Ok (from_option id default (m !! key))
  | _ => Raise (Exc AttributeError
                  ("'" +:+ type_name v +:+ "' object has no attribute 'get'"))
  end.

(** ** The request, the response and the outside world *)

(** What [do_POST] reads of the request: the header fields in order of
    arrival and the bytes waiting on [rfile]. *)
Record Request := {
  req_headers : list (string * string);
  rfile : string;
}.

(** [self.headers.get(name)]: the first field of that name, compared
    without regard to case; [None] when there is none. *)
Fixpoint headers_get (hs : list (string * string)) (name : string)
  : option string :=
  match hs with
  | [] => None
  | (k, v) :: rest =>
      if String.eqb (PyStr.lower k) (PyStr.lower name) then Some v
      else headers_get rest name
  end.

(** The request [urllib.request.Request(url, data, headers, method)] handed
    to [urlopen] with its timeout in seconds.  [up_data] is the value given
    to [json.dumps]. *)
Record UpstreamRequest := {
  up_url : string;
  up_data : json;
  up_headers : list (string * string);
  up_method : string;
  up_timeout : Z;
}.

(** What [urlopen] does: it returns a response whose [read()] is [body]; or
    raises [HTTPError] with [e.code], [str(e)] and [e.read()]; or raises
    another exception with [str(e)] (unreachable host, timeout, ...). *)
Inductive upstream_outcome :=
| UpResponse (body : string)
| UpHTTPError (code : Z) (str_e : string) (body : string)
| UpException (str_e : string).

(** [json.loads(bytes)]: a value; or a [ValueError] ([JSONDecodeError],
    [UnicodeDecodeError]) with its text; or an exception of another class,
    such as the [RecursionError] of a deeply nested text. *)
Inductive loads_result :=
| Loaded (v : json)
| DecodeError (str_e : string)
| LoadsRaised (e : pyexc).

(** Everything outside the repository that one invocation consults. *)
Record World := {
  getenv : string → option string;          (* os.getenv(name) *)
  int_of_str : string → option Z;           (* int(s); None is ValueError *)
  json_loads : string → loads_result;       (* json.loads *)
  uuid4 : string;                           (* str(uuid.uuid4()) *)
  alloc_limit : N;         (* the largest buffer rfile.read can allocate *)
  request_error : string → option string;
    (* urllib.request.Request(url, ...): None when the request object is
       built, the text of the ValueError it raises otherwise (a URL
       without a scheme: unknown url type) *)
  urlopen : UpstreamRequest → upstream_outcome;
}.

(** [except ValueError]: does the clause catch an exception of this class?
    ([json.JSONDecodeError] and [UnicodeDecodeError] are [ValueError]s and
    are the outcome [DecodeError].) *)
Definition is_value_error (e : pyexc) : bool :=
  match exc_cls e with ValueError => true | _ => false end.

(** What [rfile.read(n)] does. *)
Inductive read_outcome :=
| ReadOk (bytes : string)
| ReadValueError
| ReadRaised (e : pyexc).

(** [rfile.read(n)] on a buffered reader whose remaining input is [data]
    (64-bit CPython).  A length that does not fit an index, on either side,
    is an [OverflowError]; a length below -1 is a [ValueError]; -1 reads
    everything; the buffer of [n] bytes is allocated before anything is
    read, which is a [MemoryError] beyond what can be allocated; otherwise
    up to [n] bytes are returned. *)
Definition rfile_read (w : World) (data : string) (n : Z) : read_outcome :=
  if (n <? - 2 ^ 63) || (2 ^ 63 <=? n) then
    ReadRaised (Exc OverflowError "cannot fit 'int' into an index-sized integer")
  else if n <? -1 then ReadValueError
  else if n =? -1 then ReadOk data
  else if n <=? Z.of_N (alloc_limit w) then
    ReadOk (String.substring 0 (Z.to_nat n) data)
  else ReadRaised (Exc MemoryError EmptyString).

(** The response as the handler builds it: the status given to
    [send_response], the fields given to [send_header] in order, and the
    value whose [json.dumps] is written to [wfile] ([None]: nothing is
    written).  The [Server] and [Date] fields that [send_response] adds by
    itself are not part of it. *)
Record Response := {
  status : Z;
  headers : list (string * string);
  body : option json;
}.

Inductive outcome :=
| Responded (r : Response)
| Unhandled (e : pyexc).

(** One run of the handler: the upstream calls it made, and how it ended. *)
Record Run := {
  calls : list UpstreamRequest;
  result_of : outcome;
}.

(** ** The handler *)

(** [handler.send_error_response(code, message)] *)
Definition send_error_response (code : Z) (message : json) : Response :=
  {| status := code;
     headers := [("Content-Type", "application/json");
                 ("Access-Control-Allow-Origin", "*")];
     body := Some (JObj {[ "error" := message ]}) |}.

(** [handler.do_OPTIONS] *)
Definition do_OPTIONS : Response :=
  {| status := 200;
     headers := [("Access-Control-Allow-Origin", "*");
                 ("Access-Control-Allow-Methods", "POST, OPTIONS");
                 ("Access-Control-Allow-Headers", "Content-Type")];
     body := None |}.

(** [int(self.headers.get('Content-Length', 0))]; [None] is [ValueError]. *)
Definition content_length (w : World) (req : Request) : option Z :=
  match headers_get (req_headers req) "Content-Length" with
  | Some s => int_of_str w s
  | None => Some 0
  end.

(** [self.rfile.read(content_length)] inside the [try]. *)
Definition body_bytes (w : World) (req : Request) : read_outcome :=
  match content_length w req with
  | Some n => rfile_read w (rfile req) n
  | None => ReadValueError
  end.

(** The [try] block that parses the request body, with its clause
    [except (ValueError, json.JSONDecodeError)]: a [ValueError] leaves
    [body = {}], an exception of another class escapes. *)
Definition parse_body (w : World) (req : Request) : result json :=
  match body_bytes w req with
  | ReadValueError => Ok (JObj ∅)
  | ReadRaised e => if is_value_error e then Ok (JObj ∅) else Raise e
  | ReadOk bytes =>
      if (String.length bytes =? 0)%nat then Ok (JObj ∅)
      else match json_loads w bytes with
           | Loaded v => Ok v
           | DecodeError _ => Ok (JObj ∅)
           | LoadsRaised e => if is_value_error e then Ok (JObj ∅) else Raise e
           end
  end.

(** The workflow id: [body['workflow'].get('id')] when [body] has a
    [workflow] member that is a [dict], then
    [workflow_id or body.get('workflowId') or os.getenv(...)]. *)
Definition resolve_workflow_id (w : World) (body : json) : result json :=
  has_workflow ← py_contains "workflow" body;
  workflow_id ←
    (if has_workflow : bool then
       wf ← py_getitem body "workflow";
       if is_dict wf then
         wf' ← py_getitem body "workflow"; py_get wf' "id" JNull
       else Ok JNull
     else Ok JNull);
  if truthy workflow_id then Ok workflow_id
  else
    by_key ← py_get body "workflowId" JNull;
    if truthy by_key then Ok by_key
    else Ok (of_opt_str (getenv w "VITE_CHATKIT_WORKFLOW_ID")).

(** [a or b] for an optional string [a] and a string [b]. *)
Definition str_or (a : option string) (b : string) : string :=
  match a with
  | Some (String _ _ as s) => s
  | _ => b
  end.

Definition set_cookie_value (user_id : string) : string :=
  "chatkit_session_id=" +:+ user_id
    +:+ "; Path=/; Max-Age=2592000; HttpOnly; SameSite=Lax".

(** The [try] around [urlopen] with its two handlers, given what
    [urlopen] did. *)
Definition relay (w : World) (new_cookie : bool) (user_id : string)
    (o : upstream_outcome) : Response :=
  match o with
  | UpResponse raw =>
      match json_loads w raw with
      | DecodeError str_e =>
          send_error_response 502
            (JStr ("Failed to reach ChatKit API: " +:+ str_e))
      | LoadsRaised e =>
          send_error_response 502
            (JStr ("Failed to reach ChatKit API: " +:+ exc_str e))
      | Loaded result =>
          match py_get result "client_secret" JNull with
          | Raise e =>
              send_error_response 502
                (JStr ("Failed to reach ChatKit API: " +:+ exc_str e))
          | Ok client_secret =>
              if negb (truthy client_secret)
              then send_error_response 502 (JStr "Missing client secret")
              else
                {| status := 200;
                   headers :=
                     [("Content-Type", "application/json");
                      ("Access-Control-Allow-Origin", "*");
                      ("Access-Control-Allow-Methods", "POST, OPTIONS");
                      ("Access-Control-Allow-Headers", "Content-Type")]
                     ++ (if new_cookie
                         then [("Set-Cookie", set_cookie_value user_id)]
                         else []);
                   body := Some (JObj {[ "client_secret" := client_secret ]}) |}
          end
      end
  | UpHTTPError code str_e raw =>
      let error_msg :=
        match json_loads w raw with
        | Loaded error_body =>
            match py_get error_body "error" (JStr str_e) with
            | Ok m => m
            | Raise _ => JStr str_e
            end
        | DecodeError _ => JStr str_e
        | LoadsRaised _ => JStr str_e
        end in
      send_error_response code error_msg
  | UpException str_e =>
      send_error_response 502
        (JStr ("Failed to reach ChatKit API: " +:+ str_e))
  end.

(** The request built for [urlopen], once [urllib.request.Request] has
    accepted its URL. *)
Definition upstream_request (w : World) (api_key : string)
    (workflow_id : json) (user_id : string) : UpstreamRequest :=
  let api_base :=
    str_or (getenv w "CHATKIT_API_BASE")
      (str_or (getenv w "VITE_CHATKIT_API_BASE") "https://api.openai.com") in
  {| up_url := api_base +:+ "/v1/chatkit/sessions";
     up_data := JObj (<[ "workflow" := JObj {[ "id" := workflow_id ]} ]>
                        {[ "user" := JStr user_id ]});
     up_headers := [("Authorization", "Bearer " +:+ api_key);
                    ("OpenAI-Beta", "chatkit_beta=v1");
                    ("Content-Type", "application/json")];
     up_method := "POST";
     up_timeout := 10 |}.

(** [handler.do_POST].  The body parser, the resolution of the workflow
    id and the construction of the [Request] object are outside any [try]
    that would catch what they raise: such an exception ends the run. *)
Definition do_POST (w : World) (req : Request) : Run :=
  match getenv w "OPENAI_API_KEY" with
  | None | Some EmptyString =>
      {| calls := [];
         result_of :=
           Responded (send_error_response 500 (JStr "Missing OPENAI_API_KEY")) |}
  | Some api_key =>
      match parse_body w req ≫= resolve_workflow_id w with
      | Raise e => {| calls := []; result_of := Unhandled e |}
      | Ok workflow_id =>
          if negb (truthy workflow_id) then
            {| calls := [];
               result_of :=
                 Responded (send_error_response 400 (JStr "Missing workflow id")) |}
          else
            let cookie_header :=
              default EmptyString (headers_get (req_headers req) "Cookie") in
            let found := get_cookie_value cookie_header "chatkit_session_id" in
            let new_cookie := bool_decide (found = None) in
            let user_id := default (uuid4 w) found in
            let up := upstream_request w api_key workflow_id user_id in
            match request_error w (up_url up) with
            | Some str_e =>
                {| calls := []; result_of := Unhandled (Exc ValueError str_e) |}
            | None =>
                {| calls := [up];
                   result_of :=
                     Responded (relay w new_cookie user_id (urlopen w up)) |}
            end
      end
  end.

(** ** Notions used to state the properties *)

(** The [chatkit_session_id] cookie the request presents, if any: what
    [do_POST] gets from [get_cookie_value] on the [Cookie] header. *)
Definition session_cookie (req : Request) : option string :=
  get_cookie_value
    (default EmptyString (headers_get (req_headers req) "Cookie"))
    "chatkit_session_id".

(** The values of the response fields called [name], in order. *)
Definition header_values (name : string) (r : Response) : list string :=
  map snd (List.filter (fun kv => String.eqb (fst kv) name) (headers r)).

(** The workflow id as the specification words it: three candidates in
    order of precedence, [body.workflow.id] (only when [workflow] is a
    mapping), [body.workflowId] and the environment default; the first
    non-empty one wins.  An absent candidate is [None]. *)
Definition workflow_candidates (w : World) (m : gmap string json)
  : list json :=
  [ match m !! "workflow" with
    | Some (JObj wf) => default JNull (wf !! "id")
    | _ => JNull
    end;
    default JNull (m !! "workflowId");
    of_opt_str (getenv w "VITE_CHATKIT_WORKFLOW_ID") ].

Definition first_nonempty (candidates : list json) : option json :=
  List.find truthy candidates.

(** The body of the request [{"workflow": {"id": "A"}, "workflowId": "B"}]
    once decoded. *)
Definition body_A_B : gmap string json :=
  <[ "workflow" := JObj {[ "id" := JStr "A" ]} ]> {[ "workflowId" := JStr "B" ]}.

(** The cookie header read as the specification words it, a key-value
    parse over [;]-delimited pairs: each piece, trimmed of surrounding
    whitespace, is cut at its first [=] into a key and a value; pieces
    without [=] are no pairs.  The lookup takes the value of the first pair
    whose key is exactly the name. *)
Definition cookie_pairs (cookie_header : string) : list (string * string) :=
  omap (fun piece => PyStr.partition "=" (PyStr.strip piece))
       (PyStr.split ";" cookie_header).

Definition lookup_pair (name : string) (pairs : list (string * string))
  : option string :=
  snd <$> List.find (fun kv => String.eqb (fst kv) name) pairs.

(** The run ended with the JSON error response [code], [{"error": message}]. *)
Definition answers_error (run : Run) (code : Z) (message : json) : Prop :=
  ∃ r, result_of run = Responded r
       ∧ status r = code
       ∧ body r = Some (JObj {[ "error" := message ]}).

(** Readings that the handler does not satisfy for every request; each is
    refuted below on a concrete request, next to the statement that does
    hold. *)

(** Any [client_secret] member of a 2xx upstream object is relayed with
    status 200. *)
Definition relays_any_client_secret (w : World) (req : Request) : Prop :=
  ∀ up raw m v,
    calls (do_POST w req) = [up] →
    urlopen w up = UpResponse raw →
    json_loads w raw = Loaded (JObj m) →
    m !! "client_secret" = Some v →
    ∃ r, result_of (do_POST w req) = Responded r
         ∧ status r = 200
         ∧ body r = Some (JObj {[ "client_secret" := v ]}).


(** On an upstream [HTTPError] the message is the [error] member of the
    error body whenever that body decodes, and [str(e)] when it does not. *)
Definition relays_error_member_of_any_json (w : World) (req : Request) : Prop :=
  ∀ up code str_e raw,
    calls (do_POST w req) = [up] →
    urlopen w up = UpHTTPError code str_e raw →
    ∃ message,
      answers_error (do_POST w req) code message
      ∧ match json_loads w raw with
        | Loaded error_body => py_getitem error_body "error" = Ok message
        | _ => message = JStr str_e
        end.

(** The candidates of the precedence for a decoded body of any type: a
    body that is no mapping has no [workflow] and no [workflowId] member. *)
Definition candidates_of_body (w : World) (body : json) : list json :=
  match body with
  | JObj m => workflow_candidates w m
  | _ => [JNull; JNull; of_opt_str (getenv w "VITE_CHATKIT_WORKFLOW_ID")]
  end.

(** Whatever the request body decodes to, the workflow id resolves to the
    first non-empty candidate. *)
Definition resolves_by_precedence (w : World) (req : Request) : Prop :=
  ∀ body,
    parse_body w req = Ok body →
    ∃ v, resolve_workflow_id w body = Ok v
         ∧ match first_nonempty (candidates_of_body w body) with
           | Some x => v = x
           | None => truthy v = false
           end.

(** Whenever no candidate of the precedence is non-empty, the answer is
    400 and the upstream is not called. *)
Definition answers_400_without_workflow_id (w : World) (req : Request) : Prop :=
  ∀ body,
    parse_body w req = Ok body →
    first_nonempty (candidates_of_body w body) = None →
    calls (do_POST w req) = []
    ∧ answers_error (do_POST w req) 400 (JStr "Missing workflow id").

(** A request whose body is empty, or whose body bytes [json.loads] does
    not decode, gets the empty mapping as its body. *)
Definition unreadable_body_never_fails (w : World) (req : Request) : Prop :=
  rfile req = EmptyString
  ∨ (∃ bytes, body_bytes w req = ReadOk bytes
              ∧ ∀ v, json_loads w bytes ≠ Loaded v) →
  parse_body w req = Ok (JObj ∅).

(** The value the cookie lookup returns has no whitespace at either end. *)
Definition cookie_value_is_trimmed (cookie_header : string) : Prop :=
  ∀ v, get_cookie_value cookie_header "chatkit_session_id" = Some v →
       PyStr.strip v = v.

(** [s] has no character [c]. *)
Definition lacks (c : ascii) (s : string) : Prop := PyStr.partition c s = None.

(** The request with only the first [n] bytes left on [rfile]. *)
Definition truncated (req : Request) (n : nat) : Request :=
  {| req_headers := req_headers req;
     rfile := String.substring 0 n (rfile req) |}.

(** The response of the 200 branch of [do_POST]. *)
Definition success_response (new_cookie : bool) (user_id : string)
    (client_secret : json) : Response :=
  {| status := 200;
     headers :=
       [("Content-Type", "application/json");
        ("Access-Control-Allow-Origin", "*");
        ("Access-Control-Allow-Methods", "POST, OPTIONS");
        ("Access-Control-Allow-Headers", "Content-Type")]
       ++ (if new_cookie then [("Set-Cookie", set_cookie_value user_id)]
           else []);
     body := Some (JObj {[ "client_secret" := client_secret ]}) |}.

(** The base URL of the upstream as [do_POST] chooses it. *)
Definition api_base (w : World) : string :=
  str_or (getenv w "CHATKIT_API_BASE")
    (str_or (getenv w "VITE_CHATKIT_API_BASE") "https://api.openai.com").

(** ** Sample worlds and requests *)

Module Sample.

(** The double quote, and a JSON string literal without escapes. *)
Definition dq : string := String (ascii_of_nat 34) EmptyString.
Definition quoted (s : string) : string := dq +:+ s +:+ dq.

(** JSON texts used below. *)
Definition txt_secret : string :=
  "{" +:+ quoted "client_secret" +:+ ": " +:+ quoted "sk_abc" +:+ "}".
Definition txt_secret_extra : string :=
  "{" +:+ quoted "client_secret" +:+ ": " +:+ quoted "sk_abc" +:+ ", "
      +:+ quoted "id" +:+ ": " +:+ quoted "cksess_1" +:+ "}".
Definition txt_empty_secret : string :=
  "{" +:+ quoted "client_secret" +:+ ": " +:+ quoted "" +:+ "}".
Definition txt_rate_limited : string :=
  "{" +:+ quoted "error" +:+ ": " +:+ quoted "rate limited" +:+ "}".
Definition txt_both_ids : string :=
  "{" +:+ quoted "workflow" +:+ ": {" +:+ quoted "id" +:+ ": "
      +:+ quoted "A" +:+ "}, " +:+ quoted "workflowId" +:+ ": "
      +:+ quoted "B" +:+ "}".
Definition txt_x : string := quoted "x".

(** What [json.loads] returns on those texts. *)
Definition loads_table : list (string * json) :=
  [ (txt_secret, JObj {[ "client_secret" := JStr "sk_abc" ]});
    (txt_secret_extra,
     JObj (<[ "client_secret" := JStr "sk_abc" ]> {[ "id" := JStr "cksess_1" ]}));
    (txt_empty_secret, JObj {[ "client_secret" := JStr "" ]});
    (txt_rate_limited, JObj {[ "error" := JStr "rate limited" ]});
    (txt_both_ids,
     JObj (<[ "workflow" := JObj {[ "id" := JStr "A" ]} ]>
             {[ "workflowId" := JStr "B" ]}));
    (txt_x, JStr "x");
    ("{}", JObj ∅);
    ("[]", JArr []);
    ("[1]", JArr [JInt 1]) ].

Fixpoint assoc (k : string) (l : list (string * json)) : option json :=
  match l with
  | [] => None
  | (k', v) :: rest => if String.eqb k k' then Some v else assoc k rest
  end.

(** A hundred thousand opening brackets: the decoder recurses once per
    bracket and gives up with a [RecursionError]. *)
Definition txt_deep : string := Pos.iter (String "[") EmptyString 100000.

(** [json.loads] on the texts of the table and on [txt_deep]; the other
    text used below, ["not json"], is no JSON and gets the decoder's
    message for it. *)
Definition loads (s : string) : loads_result :=
  match assoc s loads_table with
  | Some v => Loaded v
  | None =>
      if String.eqb s txt_deep then
        LoadsRaised
          (Exc RecursionError
             "maximum recursion depth exceeded while decoding a JSON array from a unicode string")
      else DecodeError "Expecting value: line 1 column 1 (char 0)"
  end.

(** [urllib.request.Request] on the URLs used below: those with the scheme
    [http] or [https] are accepted, one without a scheme is rejected. *)
Definition request_check (url : string) : option string :=
  if String.prefix "http://" url || String.prefix "https://" url then None
  else Some ("unknown url type: '" +:+ url +:+ "'").

(** [int] on a string of decimal digits, the only form used below. *)
Fixpoint digits (acc : Z) (s : string) : option Z :=
  match s with
  | EmptyString => Some acc
  | String c s' =>
      let n := nat_of_ascii c in
      if ((48 <=? n)%nat && (n <=? 57)%nat)
      then digits (10 * acc + Z.of_nat (n - 48)) s'
      else None
  end.

Definition int (s : string) : option Z :=
  match s with
  | EmptyString => None
  | _ => digits 0 s
  end.

Definition env_of (vars : list (string * string)) (name : string)
  : option string :=
  snd <$> List.find (fun kv => String.eqb (fst kv) name) vars.

Definition fresh_uuid : string := "3f2b8c1e-5a4d-4e6f-9b7a-0c1d2e3f4a5b".

(** A world with the given environment in which [urlopen] ends as [o]. *)
Definition world (vars : list (string * string)) (o : upstream_outcome)
  : World :=
  {| getenv := env_of vars;
     int_of_str := int;
     json_loads := loads;
     uuid4 := fresh_uuid;
     alloc_limit := 1073741824;
     request_error := request_check;
     urlopen := fun _ => o |}.

Definition key_only : list (string * string) :=
  [("OPENAI_API_KEY", "sk-test")].
Definition key_and_workflow : list (string * string) :=
  [("OPENAI_API_KEY", "sk-test"); ("VITE_CHATKIT_WORKFLOW_ID", "wf_env")].
Definition schemeless_base : list (string * string) :=
  [("OPENAI_API_KEY", "sk-test"); ("VITE_CHATKIT_WORKFLOW_ID", "wf_env");
   ("CHATKIT_API_BASE", "api.openai.com")].

(** A POST with the given cookie header (if any) and body. *)
Definition post (cookie : option string) (data : string) : Request :=
  {| req_headers :=
       [("Content-Type", "application/json");
        ("Content-Length",
         NilEmpty.string_of_uint (Nat.to_uint (String.length data)))]
       ++ match cookie with
          | Some c => [("Cookie", c)]
          | None => []
          end;
     rfile := data |}.

End Sample.

(** * Properties *)

(** ** Running the model on concrete requests *)

Example cookie_first_match_wins :
  get_cookie_value "a=1; chatkit_session_id=abc ; chatkit_session_id=z"
                   "chatkit_session_id" = Some "abc".
Proof. reflexivity. Qed.

Example cookie_key_is_case_sensitive :
  get_cookie_value "a=1; Chatkit_session_id=abc" "chatkit_session_id" = None.
Proof. reflexivity. Qed.

Example cookie_value_keeps_later_equals :
  get_cookie_value "chatkit_session_id=x=y" "chatkit_session_id" = Some "x=y".
Proof. reflexivity. Qed.

Example options_is_200_without_body :
  status do_OPTIONS = 200 ∧ body do_OPTIONS = None.
Proof. split; reflexivity. Qed.

Example post_A_B_sends_A :
  let w := Sample.world Sample.key_only (UpResponse Sample.txt_secret) in
  let r := do_POST w (Sample.post None Sample.txt_both_ids) in
  map (fun up => py_getitem (up_data up) "workflow") (calls r)
  = [Ok (JObj {[ "id" := JStr "A" ]})].
Proof. vm_compute. reflexivity. Qed.

(** ** How a run of [do_POST] is put together *)

Section Handler.
Context (w : World) (req : Request).

(** A run that called the upstream did so once, with a usable API key and
    a truthy workflow id, and answered with what [relay] made of the
    outcome. *)
Lemma do_POST_called (up : UpstreamRequest) :
  calls (do_POST w req) = [up] →
  ∃ api_key workflow_id,
    getenv w "OPENAI_API_KEY" = Some api_key
    ∧ (parse_body w req ≫= resolve_workflow_id w) = Ok workflow_id
    ∧ truthy workflow_id = true
    ∧ up = upstream_request w api_key workflow_id
             (default (uuid4 w) (session_cookie req))
    ∧ result_of (do_POST w req) =
        Responded (relay w (bool_decide (session_cookie req = None))
                     (default (uuid4 w) (session_cookie req))
                     (urlopen w up)).
Proof.
  unfold do_POST, session_cookie.
  destruct (getenv w "OPENAI_API_KEY") as [[|c k]|]; cbn; try discriminate.
  destruct (parse_body w req ≫= resolve_workflow_id w) as [wid|e]; cbn;
    try discriminate.
  destruct (truthy wid) eqn:Ht; cbn; try discriminate.
  destruct (request_error w _); cbn; try discriminate.
  intros [= <-]. eauto 10.
Qed.

(** Without a usable key the answer is 500 and nothing is called. *)
Lemma do_POST_no_key :
  getenv w "OPENAI_API_KEY" = None ∨ getenv w "OPENAI_API_KEY" = Some EmptyString →
  do_POST w req =
    {| calls := [];
       result_of :=
         Responded (send_error_response 500 (JStr "Missing OPENAI_API_KEY")) |}.
Proof. unfold do_POST. by intros [-> | ->]. Qed.

End Handler.

(** What the upstream payload carries. *)
Lemma upstream_request_user
    (w : World) (api_key : string) (workflow_id : json) (user_id : string) :
  py_getitem (up_data (upstream_request w api_key workflow_id user_id)) "user"
  = Ok (JStr user_id).
Proof.
  cbn [upstream_request up_data py_getitem].
  rewrite lookup_insert_ne by done. by rewrite lookup_singleton_eq.
Qed.

(** The workflow id sent upstream is the resolved one. *)
Lemma upstream_request_workflow
    (w : World) (api_key : string) (workflow_id : json) (user_id : string) :
  py_getitem (up_data (upstream_request w api_key workflow_id user_id))
             "workflow"
  = Ok (JObj {[ "id" := workflow_id ]}).
Proof.
  cbn [upstream_request up_data py_getitem]. by rewrite lookup_insert_eq.
Qed.

(** ** Resolution of the workflow id *)

Lemma resolve_dict (w : World) (m : gmap string json) :
  resolve_workflow_id w (JObj m)
  = Ok (default (of_opt_str (getenv w "VITE_CHATKIT_WORKFLOW_ID"))
          (first_nonempty (workflow_candidates w m))).
Proof.
  unfold resolve_workflow_id, first_nonempty, workflow_candidates.
  cbn [py_contains py_get mbind result_bind].
  set (by_key := from_option id JNull (m !! "workflowId")).
  set (env := of_opt_str (getenv w "VITE_CHATKIT_WORKFLOW_ID")).
  assert (Htail : ∀ first, truthy first = false →
            (if truthy by_key then Ok by_key else Ok env)
            = Ok (default env (List.find truthy [first; by_key; env]))).
  { intros first Hf. cbn [List.find]. rewrite Hf.
    destruct (truthy by_key); [done|]. by destruct (truthy env). }
  destruct (m !! "workflow") as [wf|] eqn:Hwf.
  - rewrite bool_decide_eq_true_2 by eauto.
    cbn [py_getitem mbind result_bind]. rewrite Hwf.
    destruct wf as [|b|z|f|s|l|d];
      cbn [is_dict py_get mbind result_bind truthy];
      try (by apply (Htail JNull)).
    change (from_option id JNull (d !! "id")) with (default JNull (d !! "id")).
    destruct (truthy (default JNull (d !! "id"))) eqn:Hid.
    + cbn [List.find]. by rewrite Hid.
    + by apply Htail.
  - rewrite bool_decide_eq_false_2 by (intros [? ?]; congruence).
    cbn [mbind result_bind truthy].
    by apply (Htail JNull).
Qed.

Lemma resolve_non_dict (w : World) (v : json) :
  is_dict v = false →
  ∃ e, resolve_workflow_id w v = Raise e
       ∧ (exc_cls e = TypeError ∨ exc_cls e = AttributeError).
Proof.
  unfold resolve_workflow_id.
  destruct v as [|b|z|f|s|l|m]; cbn [is_dict py_contains mbind result_bind];
    try discriminate; intros _; eauto.
  - destruct (PyStr.contains "workflow" s); cbn; eauto.
  - destruct (existsb _ l); cbn; eauto.
Qed.

Lemma first_nonempty_none_env (w : World) (m : gmap string json) :
  first_nonempty (workflow_candidates w m) = None →
  truthy (of_opt_str (getenv w "VITE_CHATKIT_WORKFLOW_ID")) = false.
Proof.
  unfold first_nonempty, workflow_candidates. cbn [List.find].
  repeat (match goal with |- context [if truthy ?x then _ else _] =>
                            destruct (truthy x) eqn:? end;
          try discriminate).
  done.
Qed.

Lemma first_nonempty_some (l : list json) (x : json) :
  first_nonempty l = Some x → truthy x = true.
Proof. intros H. by apply List.find_some in H as [_ ?]. Qed.

(** C2 as amended.  For every request body that is a mapping (a decoded
    JSON object, or the empty mapping that stands for an empty or
    undecodable body), the workflow id is resolved with the precedence
    [body.workflow.id] (only when [workflow] is a mapping),
    [body.workflowId], environment default [VITE_CHATKIT_WORKFLOW_ID]: the
    handler's result is the first non-empty candidate, and is empty only
    when all three are; the id sent upstream is that first non-empty
    candidate.  For the body [{"workflow": {"id": "A"}, "workflowId": "B"}]
    the resolved id is "A". *)
Theorem workflow_id_precedence (w : World) (m : gmap string json) :
  (∃ v, resolve_workflow_id w (JObj m) = Ok v
        ∧ match first_nonempty (workflow_candidates w m) with
          | Some x => v = x ∧ truthy v = true
          | None => truthy v = false
          end)
  ∧ (∀ req up,
       parse_body w req = Ok (JObj m) →
       calls (do_POST w req) = [up] →
       ∃ v, first_nonempty (workflow_candidates w m) = Some v
            ∧ py_getitem (up_data up) "workflow" = Ok (JObj {[ "id" := v ]}))
  ∧ resolve_workflow_id w (JObj body_A_B) = Ok (JStr "A").
Proof.
  split; [|split].
  - eexists. split; [apply resolve_dict|].
    destruct (first_nonempty (workflow_candidates w m)) as [x|] eqn:Hfirst.
    + split; [done|]. by apply first_nonempty_some in Hfirst.
    + by apply first_nonempty_none_env in Hfirst.
  - intros req up Hbody Hcall.
    destruct (do_POST_called w req up Hcall)
      as (k & wid & _ & Hres & Htrue & -> & _).
    rewrite Hbody in Hres. cbn [mbind result_bind] in Hres.
    rewrite resolve_dict in Hres.
    destruct (first_nonempty (workflow_candidates w m)) as [x|] eqn:Hfirst;
      cbn [default from_option id] in Hres.
    + exists x. split; [done|].
      assert (wid = x) as -> by congruence. apply upstream_request_workflow.
    + apply first_nonempty_none_env in Hfirst. congruence.
  - rewrite resolve_dict. reflexivity.
Qed.

Lemma workflow_id_precedence_witness :
  ∃ v, first_nonempty
         (workflow_candidates
            (Sample.world Sample.key_and_workflow (UpResponse Sample.txt_secret))
            body_A_B) = Some v
       ∧ py_getitem
           (up_data (upstream_request
                       (Sample.world Sample.key_and_workflow
                          (UpResponse Sample.txt_secret))
                       "sk-test" (JStr "A") Sample.fresh_uuid)) "workflow"
         = Ok (JObj {[ "id" := v ]}).
Proof.
  apply (proj1 (proj2 (workflow_id_precedence
                         (Sample.world Sample.key_and_workflow
                            (UpResponse Sample.txt_secret))
                         body_A_B))
           (Sample.post None Sample.txt_both_ids));
    vm_compute; reflexivity.
Defined.

(** C2 as stated fails: the body [[1]] is valid JSON and no mapping; with
    the environment default set, the precedence would give that default,
    and the handler raises instead ([body.get] on a list). *)
Lemma array_body_does_not_resolve :
  ¬ resolves_by_precedence
      (Sample.world Sample.key_and_workflow (UpResponse Sample.txt_secret))
      (Sample.post None "[1]").
Proof.
  intros H. destruct (H (JArr [JInt 1]) eq_refl) as (v & Hv & _).
  vm_compute in Hv. discriminate Hv.
Qed.

(** C8. Whenever [OPENAI_API_KEY] is absent from the environment, a POST is
    answered with status 500 and body [{"error": "Missing OPENAI_API_KEY"}],
    whatever the request is, and the upstream is not called. *)
Theorem missing_api_key_is_500 (w : World) (req : Request) :
  getenv w "OPENAI_API_KEY" = None →
  calls (do_POST w req) = []
  ∧ ∃ r, result_of (do_POST w req) = Responded r
         ∧ status r = 500
         ∧ body r = Some (JObj {[ "error" := JStr "Missing OPENAI_API_KEY" ]}).
Proof.
  intros Hkey. rewrite do_POST_no_key by auto. split; [done|]. eauto.
Qed.

Lemma missing_api_key_is_500_witness :
  calls (do_POST (Sample.world [] (UpResponse Sample.txt_secret))
                 (Sample.post None Sample.txt_both_ids)) = []
  ∧ ∃ r, result_of (do_POST (Sample.world [] (UpResponse Sample.txt_secret))
                            (Sample.post None Sample.txt_both_ids))
         = Responded r
         ∧ status r = 500
         ∧ body r = Some (JObj {[ "error" := JStr "Missing OPENAI_API_KEY" ]}).
Proof.
  apply (missing_api_key_is_500
           (Sample.world [] (UpResponse Sample.txt_secret))
           (Sample.post None Sample.txt_both_ids)).
  reflexivity.
Defined.

(** C9 as amended.  Whenever the API key is set, the request body is a
    mapping (a decoded JSON object, or the empty mapping that stands for an
    empty or undecodable body) and no workflow id resolves from the body or
    from the environment default (every candidate is empty), a POST is
    answered with status 400 and body [{"error": "Missing workflow id"}],
    and the upstream is not called. *)
Theorem missing_workflow_id_is_400
    (w : World) (req : Request) (m : gmap string json) :
  truthy (of_opt_str (getenv w "OPENAI_API_KEY")) = true →
  parse_body w req = Ok (JObj m) →
  first_nonempty (workflow_candidates w m) = None →
  calls (do_POST w req) = []
  ∧ ∃ r, result_of (do_POST w req) = Responded r
         ∧ status r = 400
         ∧ body r = Some (JObj {[ "error" := JStr "Missing workflow id" ]}).
Proof.
  intros Hkey Hbody Hnone. unfold do_POST.
  destruct (getenv w "OPENAI_API_KEY") as [[|c k]|]; try discriminate.
  rewrite Hbody. cbn [mbind result_bind].
  rewrite resolve_dict, Hnone. cbn [default from_option id].
  rewrite (first_nonempty_none_env w m Hnone). cbn [negb calls result_of].
  split; [done|]. eauto.
Qed.

Lemma missing_workflow_id_is_400_witness :
  calls (do_POST (Sample.world Sample.key_only (UpResponse Sample.txt_secret))
                 (Sample.post None "{}")) = []
  ∧ ∃ r, result_of
           (do_POST (Sample.world Sample.key_only (UpResponse Sample.txt_secret))
                    (Sample.post None "{}"))
         = Responded r
         ∧ status r = 400
         ∧ body r = Some (JObj {[ "error" := JStr "Missing workflow id" ]}).
Proof.
  apply (missing_workflow_id_is_400
           (Sample.world Sample.key_only (UpResponse Sample.txt_secret))
           (Sample.post None "{}") ∅); reflexivity.
Defined.

(** C9 as stated fails twice over.  Without the API key the answer is 500,
    whatever resolves; and with the key, the body [[1]] and no environment
    default, nothing resolves and the handler raises instead of answering. *)
Lemma missing_workflow_id_is_not_always_400 :
  ¬ answers_400_without_workflow_id
      (Sample.world [] (UpResponse Sample.txt_secret))
      (Sample.post None "{}")
  ∧ ¬ answers_400_without_workflow_id
        (Sample.world Sample.key_only (UpResponse Sample.txt_secret))
        (Sample.post None "[1]").
Proof.
  split.
  - intros H.
    destruct (H (JObj ∅) eq_refl eq_refl) as (_ & r & Hr & Hs & _).
    vm_compute in Hr. injection Hr as <-. discriminate Hs.
  - intros H.
    destruct (H (JArr [JInt 1]) eq_refl eq_refl) as (_ & r & Hr & _).
    vm_compute in Hr. discriminate Hr.
Qed.

Example array_body_without_default_raises :
  do_POST (Sample.world Sample.key_only (UpResponse Sample.txt_secret))
          (Sample.post None "[1]")
  = {| calls := [];
       result_of :=
         Unhandled (Exc AttributeError "'list' object has no attribute 'get'") |}.
Proof. vm_compute. reflexivity. Qed.

(** ** The request body *)

Lemma parse_body_fallback (w : World) (req : Request) (bytes : string) :
  body_bytes w req = ReadOk bytes →
  bytes = EmptyString ∨ (∃ e, json_loads w bytes = DecodeError e) →
  parse_body w req = Ok (JObj ∅).
Proof.
  unfold parse_body. intros -> [-> | [e He]]; [done|].
  rewrite He. by destruct (String.length bytes =? 0)%nat.
Qed.

(** A [Content-Length] that [int] rejects, or a length that [read]
    rejects with a [ValueError], also leaves the empty mapping. *)
Lemma parse_body_bad_length (w : World) (req : Request) :
  body_bytes w req = ReadValueError → parse_body w req = Ok (JObj ∅).
Proof. unfold parse_body. by intros ->. Qed.

Lemma parse_body_loaded (w : World) (req : Request) (bytes : string) (v : json) :
  body_bytes w req = ReadOk bytes →
  String.length bytes ≠ 0%nat →
  json_loads w bytes = Loaded v →
  parse_body w req = Ok v.
Proof.
  unfold parse_body. intros -> Hlen ->.
  by destruct (Nat.eqb_spec (String.length bytes) 0).
Qed.

Lemma resolve_empty (w : World) :
  resolve_workflow_id w (JObj ∅)
  = Ok (of_opt_str (getenv w "VITE_CHATKIT_WORKFLOW_ID")).
Proof.
  rewrite resolve_dict. unfold first_nonempty, workflow_candidates.
  rewrite !lookup_empty. cbn [default from_option List.find truthy].
  by destruct (truthy (of_opt_str _)).
Qed.

(** C7 as amended.  A POST whose body bytes are read and are empty, or fail
    to decode with a [ValueError] ([json.JSONDecodeError],
    [UnicodeDecodeError]), does not fail while the body is parsed: the body
    is taken to be the empty mapping, and the workflow id is the
    environment default. *)
Theorem unreadable_body_is_empty_mapping
    (w : World) (req : Request) (bytes : string) :
  body_bytes w req = ReadOk bytes →
  bytes = EmptyString ∨ (∃ e, json_loads w bytes = DecodeError e) →
  parse_body w req = Ok (JObj ∅)
  ∧ (parse_body w req ≫= resolve_workflow_id w)
    = Ok (of_opt_str (getenv w "VITE_CHATKIT_WORKFLOW_ID")).
Proof.
  intros Hbytes Hbad.
  pose proof (parse_body_fallback w req bytes Hbytes Hbad) as Hbody.
  rewrite Hbody. split; [done|]. apply resolve_empty.
Qed.

Lemma unreadable_body_is_empty_mapping_witness :
  parse_body (Sample.world Sample.key_and_workflow (UpResponse Sample.txt_secret))
             (Sample.post None "not json") = Ok (JObj ∅)
  ∧ (parse_body
       (Sample.world Sample.key_and_workflow (UpResponse Sample.txt_secret))
       (Sample.post None "not json")
     ≫= resolve_workflow_id
          (Sample.world Sample.key_and_workflow (UpResponse Sample.txt_secret)))
    = Ok (JStr "wf_env").
Proof.
  apply (unreadable_body_is_empty_mapping
           (Sample.world Sample.key_and_workflow (UpResponse Sample.txt_secret))
           (Sample.post None "not json") "not json").
  - reflexivity.
  - right. eexists. reflexivity.
Defined.

(** C7 as stated fails twice over: the except clause of the body parser
    names [ValueError] only.  A body of a hundred thousand opening brackets
    is no JSON, and [json.loads] gives up on it with a [RecursionError],
    which escapes; and an empty body announced with the [Content-Length]
    [100000000000000000000] makes [rfile.read] raise an [OverflowError],
    which escapes too. *)
Lemma unreadable_body_can_raise :
  ¬ unreadable_body_never_fails
      (Sample.world Sample.key_and_workflow (UpResponse Sample.txt_secret))
      (Sample.post None Sample.txt_deep)
  ∧ ¬ unreadable_body_never_fails
        (Sample.world Sample.key_and_workflow (UpResponse Sample.txt_secret))
        {| req_headers := [("Content-Length", "100000000000000000000")];
           rfile := EmptyString |}.
Proof.
  split.
  - intros H.
    assert (parse_body
              (Sample.world Sample.key_and_workflow
                 (UpResponse Sample.txt_secret))
              (Sample.post None Sample.txt_deep) = Ok (JObj ∅)) as Hbody.
    { apply H. right. exists Sample.txt_deep. split.
      - assert (match body_bytes
                        (Sample.world Sample.key_and_workflow
                           (UpResponse Sample.txt_secret))
                        (Sample.post None Sample.txt_deep) with
                | ReadOk bytes => String.eqb bytes Sample.txt_deep
                | _ => false
                end = true) as Hread by (vm_compute; reflexivity).
        destruct (body_bytes _ _) as [bytes| |e]; try discriminate Hread.
        by apply String.eqb_eq in Hread as ->.
      - intros v Hv. vm_compute in Hv. discriminate Hv. }
    vm_compute in Hbody. discriminate Hbody.
  - intros H. specialize (H (or_introl eq_refl)).
    vm_compute in H. discriminate H.
Qed.

Example deep_body_escapes :
  result_of
    (do_POST
       (Sample.world Sample.key_and_workflow (UpResponse Sample.txt_secret))
       (Sample.post None Sample.txt_deep))
  = Unhandled
      (Exc RecursionError
         "maximum recursion depth exceeded while decoding a JSON array from a unicode string").
Proof. vm_compute. reflexivity. Qed.

Example huge_content_length_escapes :
  result_of
    (do_POST
       (Sample.world Sample.key_and_workflow (UpResponse Sample.txt_secret))
       {| req_headers := [("Content-Length", "100000000000000000000")];
          rfile := EmptyString |})
  = Unhandled
      (Exc OverflowError "cannot fit 'int' into an index-sized integer").
Proof. vm_compute. reflexivity. Qed.

Example empty_body_uses_environment_default :
  map (fun up => py_getitem (up_data up) "workflow")
      (calls (do_POST
                (Sample.world Sample.key_and_workflow
                   (UpResponse Sample.txt_secret))
                (Sample.post None "")))
  = [Ok (JObj {[ "id" := JStr "wf_env" ]})].
Proof. vm_compute. reflexivity. Qed.

(** C10. A POST whose body decodes to JSON that is not an object (the array
    [[1]], the string ["x"], a number, [true], [null]) makes the handler
    raise while it resolves the workflow id: a [TypeError] or an
    [AttributeError] escapes [do_POST], no response is built and the
    upstream is not called.  The empty-mapping fallback applies to empty
    and undecodable bodies only. *)
Theorem non_object_body_raises
    (w : World) (req : Request) (bytes : string) (v : json) :
  truthy (of_opt_str (getenv w "OPENAI_API_KEY")) = true →
  body_bytes w req = ReadOk bytes →
  String.length bytes ≠ 0%nat →
  json_loads w bytes = Loaded v →
  is_dict v = false →
  parse_body w req = Ok v
  ∧ ∃ e, do_POST w req = {| calls := []; result_of := Unhandled e |}
         ∧ (exc_cls e = TypeError ∨ exc_cls e = AttributeError).
Proof.
  intros Hkey Hbytes Hlen Hload Hnd.
  pose proof (parse_body_loaded w req bytes v Hbytes Hlen Hload) as Hbody.
  split; [done|].
  destruct (resolve_non_dict w v Hnd) as (e & He & Hcls).
  exists e. split; [|done]. unfold do_POST.
  destruct (getenv w "OPENAI_API_KEY") as [[|c k]|]; try discriminate.
  rewrite Hbody. cbn [mbind result_bind]. by rewrite He.
Qed.

Lemma non_object_body_raises_witness :
  parse_body (Sample.world Sample.key_and_workflow (UpResponse Sample.txt_secret))
             (Sample.post None "[1]") = Ok (JArr [JInt 1])
  ∧ ∃ e, do_POST
           (Sample.world Sample.key_and_workflow (UpResponse Sample.txt_secret))
           (Sample.post None "[1]")
         = {| calls := []; result_of := Unhandled e |}
         ∧ (exc_cls e = TypeError ∨ exc_cls e = AttributeError).
Proof.
  apply (non_object_body_raises
           (Sample.world Sample.key_and_workflow (UpResponse Sample.txt_secret))
           (Sample.post None "[1]") "[1]" (JArr [JInt 1]));
    [reflexivity | reflexivity | simpl; lia | reflexivity | reflexivity].
Defined.

Example array_body_raises_attribute_error :
  result_of (do_POST
               (Sample.world Sample.key_and_workflow
                  (UpResponse Sample.txt_secret))
               (Sample.post None "[1]"))
  = Unhandled (Exc AttributeError "'list' object has no attribute 'get'").
Proof. reflexivity. Qed.

Example string_body_raises_attribute_error :
  result_of (do_POST
               (Sample.world Sample.key_and_workflow
                  (UpResponse Sample.txt_secret))
               (Sample.post None Sample.txt_x))
  = Unhandled (Exc AttributeError "'str' object has no attribute 'get'").
Proof. reflexivity. Qed.

(** ** What [relay] makes of the upstream outcome *)

Section Relay.
Context (w : World) (new_cookie : bool) (user_id : string).

Lemma relay_success (raw : string) (m : gmap string json) (v : json) :
  json_loads w raw = Loaded (JObj m) →
  m !! "client_secret" = Some v →
  truthy v = true →
  relay w new_cookie user_id (UpResponse raw)
  = {| status := 200;
       headers :=
         [("Content-Type", "application/json");
          ("Access-Control-Allow-Origin", "*");
          ("Access-Control-Allow-Methods", "POST, OPTIONS");
          ("Access-Control-Allow-Headers", "Content-Type")]
         ++ (if new_cookie then [("Set-Cookie", set_cookie_value user_id)]
             else []);
       body := Some (JObj {[ "client_secret" := v ]}) |}.
Proof.
  intros Hload Hm Hv. unfold relay. rewrite Hload. cbn [py_get].
  rewrite Hm. cbn [from_option id]. by rewrite Hv.
Qed.

Lemma relay_falsy_secret (raw : string) (m : gmap string json) :
  json_loads w raw = Loaded (JObj m) →
  truthy (default JNull (m !! "client_secret")) = false →
  relay w new_cookie user_id (UpResponse raw)
  = send_error_response 502 (JStr "Missing client secret").
Proof.
  intros Hload Hv. unfold relay. rewrite Hload. cbn [py_get].
  change (from_option id JNull (m !! "client_secret"))
    with (default JNull (m !! "client_secret")).
  by rewrite Hv.
Qed.

Lemma relay_undecodable (raw str_e : string) :
  json_loads w raw = DecodeError str_e →
  relay w new_cookie user_id (UpResponse raw)
  = send_error_response 502 (JStr ("Failed to reach ChatKit API: " +:+ str_e)).
Proof. intros Hload. unfold relay. by rewrite Hload. Qed.

Lemma relay_non_object (raw : string) (v : json) :
  json_loads w raw = Loaded v →
  is_dict v = false →
  relay w new_cookie user_id (UpResponse raw)
  = send_error_response 502
      (JStr ("Failed to reach ChatKit API: '" +:+ type_name v
             +:+ "' object has no attribute 'get'")).
Proof.
  intros Hload Hnd. unfold relay. rewrite Hload.
  by destruct v; try discriminate.
Qed.

Lemma relay_http_error (code : Z) (str_e raw : string) :
  relay w new_cookie user_id (UpHTTPError code str_e raw)
  = send_error_response code
      match json_loads w raw with
      | Loaded (JObj m) => default (JStr str_e) (m !! "error")
      | _ => JStr str_e
      end.
Proof.
  unfold relay. destruct (json_loads w raw) as [v|e|e]; [|done..].
  by destruct v.
Qed.

End Relay.


(** ** Success *)

(** C1 as amended.  When the upstream answers a POST with a 2xx JSON object
    whose [client_secret] member is truthy (a non-empty string such as
    ["sk_abc"]), the handler answers with status 200 and the body
    [{"client_secret": <that value>}]: one member, nothing else of the
    upstream object. *)
Theorem success_relays_client_secret
    (w : World) (req : Request) (up : UpstreamRequest)
    (raw : string) (m : gmap string json) (v : json) :
  calls (do_POST w req) = [up] →
  urlopen w up = UpResponse raw →
  json_loads w raw = Loaded (JObj m) →
  m !! "client_secret" = Some v →
  truthy v = true →
  ∃ r, result_of (do_POST w req) = Responded r
       ∧ status r = 200
       ∧ body r = Some (JObj {[ "client_secret" := v ]}).
Proof.
  intros Hcall Hup Hload Hm Hv.
  destruct (do_POST_called w req up Hcall) as (k & wid & _ & _ & _ & _ & ->).
  rewrite Hup, (relay_success _ _ _ raw m v Hload Hm Hv). eauto.
Qed.

Lemma success_relays_client_secret_witness :
  ∃ r, result_of
         (do_POST
            (Sample.world Sample.key_and_workflow
               (UpResponse Sample.txt_secret_extra))
            (Sample.post None "")) = Responded r
       ∧ status r = 200
       ∧ body r = Some (JObj {[ "client_secret" := JStr "sk_abc" ]}).
Proof.
  apply (success_relays_client_secret
           (Sample.world Sample.key_and_workflow
              (UpResponse Sample.txt_secret_extra))
           (Sample.post None "")
           (upstream_request
              (Sample.world Sample.key_and_workflow
                 (UpResponse Sample.txt_secret_extra))
              "sk-test" (JStr "wf_env") Sample.fresh_uuid)
           Sample.txt_secret_extra
           (<[ "client_secret" := JStr "sk_abc" ]> {[ "id" := JStr "cksess_1" ]})
           (JStr "sk_abc"));
    vm_compute; reflexivity.
Defined.

(** C1 as stated fails: the upstream object [{"client_secret": ""}] has a
    [client_secret] member, and the handler answers 502. *)
Lemma empty_client_secret_is_not_relayed :
  ¬ relays_any_client_secret
      (Sample.world Sample.key_and_workflow
         (UpResponse Sample.txt_empty_secret))
      (Sample.post None "").
Proof.
  intros H.
  destruct (H (upstream_request
                 (Sample.world Sample.key_and_workflow
                    (UpResponse Sample.txt_empty_secret))
                 "sk-test" (JStr "wf_env") Sample.fresh_uuid)
              Sample.txt_empty_secret
              {[ "client_secret" := JStr "" ]} (JStr ""))
    as (r & Hr & Hs & _); try (vm_compute; reflexivity).
  vm_compute in Hr. injection Hr as <-. discriminate Hs.
Qed.

Example empty_client_secret_is_502 :
  result_of
    (do_POST
       (Sample.world Sample.key_and_workflow
          (UpResponse Sample.txt_empty_secret))
       (Sample.post None ""))
  = Responded (send_error_response 502 (JStr "Missing client secret")).
Proof. vm_compute. reflexivity. Qed.

(** ** The anonymous identity *)




Example no_client_secret_no_set_cookie :
  result_of
    (do_POST (Sample.world Sample.key_and_workflow (UpResponse "{}"))
             (Sample.post None ""))
  = Responded
      {| status := 502;
         headers := [("Content-Type", "application/json");
                     ("Access-Control-Allow-Origin", "*")];
         body := Some (JObj {[ "error" := JStr "Missing client secret" ]}) |}.
Proof. vm_compute. reflexivity. Qed.

(** ** Upstream failures *)

(** C4 as amended.  When the upstream call ends in an HTTP error, the
    handler answers with the upstream status code and the body
    [{"error": <message>}], where the message is the [error] member of the
    upstream error body when that body decodes to a JSON object that has
    one, and the error text [str(e)] otherwise. *)
Theorem upstream_http_error_is_relayed
    (w : World) (req : Request) (up : UpstreamRequest)
    (code : Z) (str_e raw : string) :
  calls (do_POST w req) = [up] →
  urlopen w up = UpHTTPError code str_e raw →
  answers_error (do_POST w req) code
    match json_loads w raw with
    | Loaded (JObj m) => default (JStr str_e) (m !! "error")
    | _ => JStr str_e
    end.
Proof.
  intros Hcall Hup.
  destruct (do_POST_called w req up Hcall) as (k & wid & _ & _ & _ & _ & Hres).
  unfold answers_error. rewrite Hres, Hup, relay_http_error. eauto.
Qed.

Lemma upstream_http_error_is_relayed_witness :
  answers_error
    (do_POST
       (Sample.world Sample.key_and_workflow
          (UpHTTPError 429 "HTTP Error 429: Too Many Requests"
             Sample.txt_rate_limited))
       (Sample.post None ""))
    429 (JStr "rate limited").
Proof.
  apply (upstream_http_error_is_relayed
           (Sample.world Sample.key_and_workflow
              (UpHTTPError 429 "HTTP Error 429: Too Many Requests"
                 Sample.txt_rate_limited))
           (Sample.post None "")
           (upstream_request
              (Sample.world Sample.key_and_workflow
                 (UpHTTPError 429 "HTTP Error 429: Too Many Requests"
                    Sample.txt_rate_limited))
              "sk-test" (JStr "wf_env") Sample.fresh_uuid)
           429 "HTTP Error 429: Too Many Requests" Sample.txt_rate_limited);
    vm_compute; reflexivity.
Defined.

(** C4 as stated fails: the upstream answers 500 with the body [{}], which
    is JSON and has no [error] member; the message is [str(e)]. *)
Lemma error_body_without_error_member :
  ¬ relays_error_member_of_any_json
      (Sample.world Sample.key_and_workflow
         (UpHTTPError 500 "HTTP Error 500: Internal Server Error" "{}"))
      (Sample.post None "").
Proof.
  intros H.
  destruct (H (upstream_request
                 (Sample.world Sample.key_and_workflow
                    (UpHTTPError 500 "HTTP Error 500: Internal Server Error"
                       "{}"))
                 "sk-test" (JStr "wf_env") Sample.fresh_uuid)
              500 "HTTP Error 500: Internal Server Error" "{}")
    as (message & _ & Hm); try (vm_compute; reflexivity).
  vm_compute in Hm. discriminate Hm.
Qed.

Example status_500_with_empty_object_body :
  result_of
    (do_POST
       (Sample.world Sample.key_and_workflow
          (UpHTTPError 500 "HTTP Error 500: Internal Server Error" "{}"))
       (Sample.post None ""))
  = Responded
      (send_error_response 500 (JStr "HTTP Error 500: Internal Server Error")).
Proof. vm_compute. reflexivity. Qed.

(** C5. When the upstream cannot be reached (unreachable host, timeout, any
    exception of [urlopen] other than an HTTP error), or its 2xx body
    cannot be used, the handler answers with status 502 and a JSON error
    body: [{"error": "Missing client secret"}] when the 2xx JSON object has
    no [client_secret] member, and
    [{"error": "Failed to reach ChatKit API: <details>"}] in the other
    cases, where the details are [str(e)] of the exception. *)
Theorem upstream_failure_is_502
    (w : World) (req : Request) (up : UpstreamRequest) :
  calls (do_POST w req) = [up] →
  (∀ str_e,
     urlopen w up = UpException str_e →
     answers_error (do_POST w req) 502
       (JStr ("Failed to reach ChatKit API: " +:+ str_e)))
  ∧ (∀ raw m,
       urlopen w up = UpResponse raw →
       json_loads w raw = Loaded (JObj m) →
       m !! "client_secret" = None →
       answers_error (do_POST w req) 502 (JStr "Missing client secret"))
  ∧ (∀ raw str_e,
       urlopen w up = UpResponse raw →
       json_loads w raw = DecodeError str_e →
       answers_error (do_POST w req) 502
         (JStr ("Failed to reach ChatKit API: " +:+ str_e)))
  ∧ (∀ raw v,
       urlopen w up = UpResponse raw →
       json_loads w raw = Loaded v →
       is_dict v = false →
       answers_error (do_POST w req) 502
         (JStr ("Failed to reach ChatKit API: '" +:+ type_name v
                +:+ "' object has no attribute 'get'"))).
Proof.
  intros Hcall.
  destruct (do_POST_called w req up Hcall) as (k & wid & _ & _ & _ & _ & Hres).
  unfold answers_error. rewrite Hres. repeat split.
  - intros str_e ->. cbn [relay]. eauto.
  - intros raw m -> Hload Hm.
    rewrite (relay_falsy_secret _ _ _ raw m Hload) by (by rewrite Hm). eauto.
  - intros raw str_e -> Hload. rewrite (relay_undecodable _ _ _ raw str_e Hload).
    eauto.
  - intros raw v -> Hload Hnd. rewrite (relay_non_object _ _ _ raw v Hload Hnd).
    eauto.
Qed.

Lemma upstream_failure_is_502_witness :
  answers_error
    (do_POST
       (Sample.world Sample.key_and_workflow
          (UpException "<urlopen error timed out>"))
       (Sample.post None ""))
    502 (JStr "Failed to reach ChatKit API: <urlopen error timed out>")
  ∧ answers_error
      (do_POST (Sample.world Sample.key_and_workflow (UpResponse "{}"))
               (Sample.post None ""))
      502 (JStr "Missing client secret").
Proof.
  split.
  - apply (proj1 (upstream_failure_is_502
                    (Sample.world Sample.key_and_workflow
                       (UpException "<urlopen error timed out>"))
                    (Sample.post None "")
                    (upstream_request
                       (Sample.world Sample.key_and_workflow
                          (UpException "<urlopen error timed out>"))
                       "sk-test" (JStr "wf_env") Sample.fresh_uuid)
                    ltac:(vm_compute; reflexivity))).
    reflexivity.
  - apply (proj1 (proj2 (upstream_failure_is_502
                    (Sample.world Sample.key_and_workflow (UpResponse "{}"))
                    (Sample.post None "")
                    (upstream_request
                       (Sample.world Sample.key_and_workflow (UpResponse "{}"))
                       "sk-test" (JStr "wf_env") Sample.fresh_uuid)
                    ltac:(vm_compute; reflexivity))) "{}" ∅);
      reflexivity.
Defined.

Example upstream_array_is_502 :
  result_of
    (do_POST (Sample.world Sample.key_and_workflow (UpResponse "[]"))
             (Sample.post None ""))
  = Responded
      (send_error_response 502
         (JStr "Failed to reach ChatKit API: 'list' object has no attribute 'get'")).
Proof. vm_compute. reflexivity. Qed.

Example upstream_garbage_is_502 :
  result_of
    (do_POST (Sample.world Sample.key_and_workflow (UpResponse "not json"))
             (Sample.post None ""))
  = Responded
      (send_error_response 502
         (JStr "Failed to reach ChatKit API: Expecting value: line 1 column 1 (char 0)")).
Proof. vm_compute. reflexivity. Qed.

(** ** The cookie lookup *)

Section Strings.

Lemma app_cons (c : ascii) (s t : string) :
  String c s +:+ t = String c (s +:+ t).
Proof. reflexivity. Qed.

Lemma app_assoc_str (s t u : string) : (s +:+ t) +:+ u = s +:+ (t +:+ u).
Proof. induction s as [|c s IH]; [done|]. by rewrite !app_cons, IH. Qed.

Lemma prefix_cons (a b : ascii) (p s : string) :
  String.prefix (String a p) (String b s)
  = if Ascii.eqb a b then String.prefix p s else false.
Proof.
  cbn [String.prefix]. destruct (ascii_dec a b) as [->|Hne].
  - by rewrite Ascii.eqb_refl.
  - by apply Ascii.eqb_neq in Hne as ->.
Qed.

Lemma prefix_inv (p s : string) :
  String.prefix p s = true → ∃ r, s = p +:+ r.
Proof.
  revert s. induction p as [|a p IH]; intros s.
  - exists s. done.
  - destruct s as [|b s]; [done|]. rewrite prefix_cons.
    destruct (Ascii.eqb_spec a b) as [->|]; [|done].
    intros [r ->]%IH. by exists r.
Qed.

Lemma prefix_app (p r : string) : String.prefix p (p +:+ r) = true.
Proof.
  induction p as [|a p IH]; [by destruct r|].
  by rewrite app_cons, prefix_cons, Ascii.eqb_refl.
Qed.

Lemma partition_app (sep : ascii) (k v : string) :
  PyStr.partition sep k = None →
  PyStr.partition sep (k +:+ String sep v) = Some (k, v).
Proof.
  induction k as [|c k IH]; cbn [PyStr.partition].
  - intros _. change (EmptyString +:+ String sep v) with (String sep v).
    cbn [PyStr.partition]. by rewrite Ascii.eqb_refl.
  - rewrite app_cons. cbn [PyStr.partition].
    destruct (Ascii.eqb c sep); [done|].
    destruct (PyStr.partition sep k) as [[a b]|]; [done|].
    intros _. by rewrite IH.
Qed.

Lemma partition_inv (sep : ascii) (s k v : string) :
  PyStr.partition sep s = Some (k, v) →
  s = k +:+ String sep v ∧ PyStr.partition sep k = None.
Proof.
  revert k. induction s as [|c s IH]; intros k; cbn [PyStr.partition]; [done|].
  destruct (Ascii.eqb_spec c sep) as [->|Hne].
  - by intros [= <- <-].
  - destruct (PyStr.partition sep s) as [[a b]|]; [|done].
    intros [= <- <-]. destruct (IH a eq_refl) as [-> Ha].
    split; [done|]. cbn [PyStr.partition].
    apply Ascii.eqb_neq in Hne as ->. by rewrite Ha.
Qed.

Lemma rstrip_tail (c : ascii) (s : string) :
  PyStr.rstrip (String c s) = String c s → PyStr.rstrip s = s.
Proof.
  cbn [PyStr.rstrip]. destruct (PyStr.rstrip s) as [|x r] eqn:Hr.
  - destruct (PyStr.isspace c); [done|]. by intros [= <-].
  - by intros [= <-].
Qed.

Lemma rstrip_suffix (p v : string) :
  PyStr.rstrip (p +:+ v) = p +:+ v → PyStr.rstrip v = v.
Proof.
  induction p as [|c p IH]; [done|].
  rewrite app_cons. intros H%rstrip_tail. auto.
Qed.

Lemma rstrip_idemp (s : string) : PyStr.rstrip (PyStr.rstrip s) = PyStr.rstrip s.
Proof.
  induction s as [|c s IH]; [done|]. cbn [PyStr.rstrip].
  destruct (PyStr.rstrip s) as [|x r] eqn:Hr.
  - destruct (PyStr.isspace c) eqn:Hc; [done|].
    cbn [PyStr.rstrip]. by rewrite Hc.
  - cbn [PyStr.rstrip] in IH |- *.
    by destruct (match PyStr.rstrip r with
                 | EmptyString =>
                     if PyStr.isspace x then EmptyString
                     else String x EmptyString
                 | String a s0 => String x (String a s0)
                 end); [|injection IH as <- <-].
Qed.

Lemma strip_rstripped (s : string) :
  PyStr.rstrip (PyStr.strip s) = PyStr.strip s.
Proof. apply rstrip_idemp. Qed.

End Strings.

Section CookieLookup.
Context (name : string) (Hname : PyStr.partition "=" name = None).

(** A trimmed piece passes the test of [get_cookie_value] exactly when its
    key is [name], and then index 1 of [split('=', 1)] is its value. *)
Lemma startswith_split1 (piece : string) :
  PyStr.startswith (name +:+ "=") piece = true →
  ∃ v, PyStr.partition "=" piece = Some (name, v)
       ∧ PyStr.split1 "=" piece = [name; v].
Proof.
  unfold PyStr.startswith, PyStr.split1. intros [r ->]%prefix_inv.
  exists r. rewrite app_assoc_str.
  change ("=" +:+ r) with (String "=" r).
  by rewrite (partition_app "=" name r Hname).
Qed.

Lemma partition_startswith (piece k v : string) :
  PyStr.partition "=" piece = Some (k, v) →
  PyStr.startswith (name +:+ "=") piece = String.eqb k name.
Proof.
  intros Hp. destruct (String.eqb_spec k name) as [->|Hne].
  - apply partition_inv in Hp as [-> _]. unfold PyStr.startswith.
    change (String "=" v) with ("=" +:+ v).
    rewrite <- app_assoc_str. apply prefix_app.
  - destruct (PyStr.startswith (name +:+ "=") piece) eqn:Hs; [|done].
    apply startswith_split1 in Hs as (v' & Hp' & _). congruence.
Qed.

Lemma get_cookie_loop_pairs (pieces : list string) :
  get_cookie_loop pieces name
  = lookup_pair name
      (omap (fun piece => PyStr.partition "=" (PyStr.strip piece)) pieces).
Proof.
  unfold lookup_pair.
  induction pieces as [|piece rest IH]; [done|].
  cbn [get_cookie_loop omap list_omap].
  destruct (PyStr.partition "=" (PyStr.strip piece)) as [[k v]|] eqn:Hp.
  - rewrite (partition_startswith _ k v Hp). cbn [List.find fst].
    destruct (String.eqb k name); [|done].
    unfold PyStr.split1. by rewrite Hp.
  - destruct (PyStr.startswith (name +:+ "=") (PyStr.strip piece)) eqn:Hs;
      [|done].
    apply startswith_split1 in Hs as (v & Hp' & _). congruence.
Qed.

Lemma get_cookie_loop_rstripped (pieces : list string) (v : string) :
  get_cookie_loop pieces name = Some v → PyStr.rstrip v = v.
Proof.
  induction pieces as [|piece rest IH]; [done|].
  cbn [get_cookie_loop].
  destruct (PyStr.startswith (name +:+ "=") (PyStr.strip piece)) eqn:Hs;
    [|done].
  apply startswith_split1 in Hs as (r & Hp & ->). cbn [nth]. intros [= <-].
  apply partition_inv in Hp as [Hpiece _].
  pose proof (strip_rstripped piece) as Hr. rewrite Hpiece in Hr.
  change (String "=" r) with ("=" +:+ r) in Hr.
  rewrite <- app_assoc_str in Hr. by apply rstrip_suffix in Hr.
Qed.

End CookieLookup.

(** C6 as amended.  For every [Cookie] header, the [chatkit_session_id]
    lookup is a key-value parse over the [;]-delimited pieces, each trimmed
    of surrounding whitespace and cut at its first [=]: the key is matched
    exactly (case-sensitively), the first matching pair wins, and without a
    matching pair the lookup reports absence.  The value is what follows
    the [=]: it has no whitespace at its end, and keeps any whitespace at
    its start. *)
Theorem cookie_lookup_is_key_value_parse (cookie_header : string) :
  get_cookie_value cookie_header "chatkit_session_id"
  = lookup_pair "chatkit_session_id" (cookie_pairs cookie_header)
  ∧ (∀ v, get_cookie_value cookie_header "chatkit_session_id" = Some v →
          PyStr.rstrip v = v)
  ∧ get_cookie_value "chatkit_session_id= abc" "chatkit_session_id"
    = Some " abc".
Proof.
  split; [|split].
  - by apply get_cookie_loop_pairs.
  - intros v. by apply get_cookie_loop_rstripped.
  - reflexivity.
Qed.

(** C6 as stated fails: in [chatkit_session_id= abc] the value starts with
    a space, and the lookup returns it with that space. *)
Lemma cookie_value_keeps_leading_space :
  ¬ cookie_value_is_trimmed "chatkit_session_id= abc".
Proof.
  intros H. specialize (H " abc" eq_refl). vm_compute in H. discriminate H.
Qed.

Example cookie_pairs_example :
  cookie_pairs "a=1; chatkit_session_id=abc ; flag; b = 2"
  = [("a", "1"); ("chatkit_session_id", "abc"); ("b ", " 2")].
Proof. reflexivity. Qed.

Lemma cookie_lookup_is_key_value_parse_witness :
  get_cookie_value "a=1; chatkit_session_id=abc ; b=2" "chatkit_session_id"
  = lookup_pair "chatkit_session_id"
      (cookie_pairs "a=1; chatkit_session_id=abc ; b=2")
  ∧ PyStr.rstrip "abc" = "abc".
Proof.
  split.
  - apply (proj1 (cookie_lookup_is_key_value_parse
                    "a=1; chatkit_session_id=abc ; b=2")).
  - apply (proj1 (proj2 (cookie_lookup_is_key_value_parse
                           "a=1; chatkit_session_id=abc ; b=2")) "abc").
    reflexivity.
Defined.

(** * Further properties of the handler *)

(** ** Every way a run can end *)

Lemma relay_cases
    (w : World) (new_cookie : bool) (user_id : string) (o : upstream_outcome) :
  (∃ code message,
     relay w new_cookie user_id o = send_error_response code message)
  ∨ (∃ raw m v,
       o = UpResponse raw
       ∧ json_loads w raw = Loaded (JObj m)
       ∧ m !! "client_secret" = Some v
       ∧ truthy v = true
       ∧ relay w new_cookie user_id o = success_response new_cookie user_id v).
Proof.
  destruct o as [raw|code str_e raw|str_e]; cbn [relay]; eauto.
  destruct (json_loads w raw) as [res|e|e] eqn:Hload; eauto.
  destruct res as [|b|z|f|s|l|m]; cbn [py_get]; eauto.
  destruct (m !! "client_secret") as [v|] eqn:Hm; cbn [from_option id truthy negb];
    eauto.
  destruct (truthy v) eqn:Hv; cbn [negb]; eauto.
  right. exists raw, m, v. eauto.
Qed.

Lemma do_POST_cases (w : World) (req : Request) :
  (truthy (of_opt_str (getenv w "OPENAI_API_KEY")) = false
   ∧ do_POST w req =
       {| calls := [];
          result_of :=
            Responded (send_error_response 500 (JStr "Missing OPENAI_API_KEY")) |})
  ∨ (truthy (of_opt_str (getenv w "OPENAI_API_KEY")) = true
     ∧ ∃ e, (parse_body w req ≫= resolve_workflow_id w) = Raise e
            ∧ do_POST w req = {| calls := []; result_of := Unhandled e |})
  ∨ (truthy (of_opt_str (getenv w "OPENAI_API_KEY")) = true
     ∧ (∃ v, (parse_body w req ≫= resolve_workflow_id w) = Ok v
             ∧ truthy v = false)
     ∧ do_POST w req =
         {| calls := [];
            result_of :=
              Responded (send_error_response 400 (JStr "Missing workflow id")) |})
  ∨ (truthy (of_opt_str (getenv w "OPENAI_API_KEY")) = true
     ∧ ∃ v str_e,
         (parse_body w req ≫= resolve_workflow_id w) = Ok v
         ∧ truthy v = true
         ∧ request_error w (api_base w +:+ "/v1/chatkit/sessions") = Some str_e
         ∧ do_POST w req =
             {| calls := []; result_of := Unhandled (Exc ValueError str_e) |})
  ∨ (truthy (of_opt_str (getenv w "OPENAI_API_KEY")) = true
     ∧ ∃ api_key v,
         getenv w "OPENAI_API_KEY" = Some api_key
         ∧ (parse_body w req ≫= resolve_workflow_id w) = Ok v
         ∧ truthy v = true
         ∧ request_error w (api_base w +:+ "/v1/chatkit/sessions") = None
         ∧ do_POST w req =
             {| calls := [upstream_request w api_key v
                            (default (uuid4 w) (session_cookie req))];
                result_of :=
                  Responded
                    (relay w (bool_decide (session_cookie req = None))
                       (default (uuid4 w) (session_cookie req))
                       (urlopen w (upstream_request w api_key v
                                     (default (uuid4 w) (session_cookie req))))) |}).
Proof.
  unfold do_POST, session_cookie.
  destruct (getenv w "OPENAI_API_KEY") as [[|c k]|]; cbn; auto.
  right.
  destruct (parse_body w req ≫= resolve_workflow_id w) as [v|e];
    [|left; eauto].
  right. destruct (truthy v) eqn:Hv; cbn [negb]; [right|left; eauto 10].
  change (str_or (getenv w "CHATKIT_API_BASE")
            (str_or (getenv w "VITE_CHATKIT_API_BASE") "https://api.openai.com"))
    with (api_base w).
  destruct (request_error w _) as [str_e|] eqn:Hreq; [left|right]; eauto 10.
Qed.

(** A response of [do_POST] is an error response or the 200 response. *)
Lemma do_POST_responses (w : World) (req : Request) (r : Response) :
  result_of (do_POST w req) = Responded r →
  (∃ code message, r = send_error_response code message)
  ∨ (∃ up v,
       calls (do_POST w req) = [up]
       ∧ py_getitem (up_data up) "user"
         = Ok (JStr (default (uuid4 w) (session_cookie req)))
       ∧ truthy v = true
       ∧ r = success_response (bool_decide (session_cookie req = None))
               (default (uuid4 w) (session_cookie req)) v).
Proof.
  destruct (do_POST_cases w req)
    as [[_ ->]|[(_ & e & _ & ->)|[(_ & _ & ->)
       |[(_ & v & str_e & _ & _ & _ & ->)|(_ & k & v & _ & _ & _ & _ & ->)]]]];
    cbn [result_of calls]; try (intros [= <-]; eauto); try done.
  destruct (relay_cases w (bool_decide (session_cookie req = None))
              (default (uuid4 w) (session_cookie req))
              (urlopen w (upstream_request w k v
                            (default (uuid4 w) (session_cookie req)))))
    as [(code & msg & ->)|(raw & m & cs & _ & _ & _ & Hcs & ->)]; eauto.
  right. eexists _, cs. split; [done|].
  split; [apply upstream_request_user|]. done.
Qed.

(** ** What every response has *)

(** X1. Every response of [do_POST], on the error paths and on the 200 path
    alike, has exactly one [Content-Type] field, [application/json], and
    exactly one [Access-Control-Allow-Origin] field, [*]. *)
Theorem every_response_is_json_with_cors
    (w : World) (req : Request) (r : Response) :
  result_of (do_POST w req) = Responded r →
  header_values "Content-Type" r = ["application/json"]
  ∧ header_values "Access-Control-Allow-Origin" r = ["*"].
Proof.
  intros [(code & msg & ->)|(up & v & _ & _ & _ & ->)]%do_POST_responses;
    [done|].
  by destruct (bool_decide (session_cookie req = None)).
Qed.

Lemma every_response_is_json_with_cors_witness :
  header_values "Content-Type"
    (send_error_response 400 (JStr "Missing workflow id"))
  = ["application/json"]
  ∧ header_values "Access-Control-Allow-Origin"
      (send_error_response 400 (JStr "Missing workflow id"))
    = ["*"].
Proof.
  apply (every_response_is_json_with_cors
           (Sample.world Sample.key_only (UpResponse Sample.txt_secret))
           (Sample.post None "{}")).
  vm_compute. reflexivity.
Defined.

(** X2. The body of every response of [do_POST] is a JSON object with one
    member: either [error], and then the response sets no cookie, or
    [client_secret] with a truthy value, and then the status is 200.  The
    handler never sends an empty client secret and never sends both
    members. *)
Theorem response_is_error_or_client_secret
    (w : World) (req : Request) (r : Response) :
  result_of (do_POST w req) = Responded r →
  (∃ message,
     body r = Some (JObj {[ "error" := message ]})
     ∧ header_values "Set-Cookie" r = [])
  ∨ (∃ v,
       truthy v = true
       ∧ status r = 200
       ∧ body r = Some (JObj {[ "client_secret" := v ]})).
Proof.
  intros [(code & msg & ->)|(up & v & _ & _ & Hv & ->)]%do_POST_responses;
    eauto.
Qed.

Lemma response_is_error_or_client_secret_witness :
  (∃ message,
     body (success_response true Sample.fresh_uuid (JStr "sk_abc"))
     = Some (JObj {[ "error" := message ]})
     ∧ header_values "Set-Cookie"
         (success_response true Sample.fresh_uuid (JStr "sk_abc")) = [])
  ∨ (∃ v,
       truthy v = true
       ∧ status (success_response true Sample.fresh_uuid (JStr "sk_abc")) = 200
       ∧ body (success_response true Sample.fresh_uuid (JStr "sk_abc"))
         = Some (JObj {[ "client_secret" := v ]})).
Proof.
  apply (response_is_error_or_client_secret
           (Sample.world Sample.key_and_workflow (UpResponse Sample.txt_secret))
           (Sample.post None "")).
  vm_compute. reflexivity.
Defined.

(** X3. A response of [do_POST] that has a [Set-Cookie] field has exactly
    one; its status is 200, the request presented no [chatkit_session_id]
    cookie, and the cookie carries the UUID that was sent upstream as
    [user] in the one upstream call.  No error response sets the cookie. *)
Theorem set_cookie_only_on_success
    (w : World) (req : Request) (r : Response) (c : string) (rest : list string) :
  result_of (do_POST w req) = Responded r →
  header_values "Set-Cookie" r = c :: rest →
  status r = 200
  ∧ session_cookie req = None
  ∧ c = set_cookie_value (uuid4 w)
  ∧ rest = []
  ∧ ∃ up, calls (do_POST w req) = [up]
          ∧ py_getitem (up_data up) "user" = Ok (JStr (uuid4 w)).
Proof.
  intros [(code & msg & ->)|(up & v & Hcall & Huser & _ & ->)]%do_POST_responses;
    [done|].
  destruct (session_cookie req) as [u|] eqn:Hcookie; [done|].
  cbn. intros [= <- <-]. eauto 10.
Qed.

Lemma set_cookie_only_on_success_witness :
  status (success_response true Sample.fresh_uuid (JStr "sk_abc")) = 200
  ∧ session_cookie (Sample.post None "") = None
  ∧ set_cookie_value Sample.fresh_uuid
    = set_cookie_value
        (uuid4 (Sample.world Sample.key_and_workflow
                  (UpResponse Sample.txt_secret)))
  ∧ ([] : list string) = []
  ∧ ∃ up,
      calls (do_POST
               (Sample.world Sample.key_and_workflow
                  (UpResponse Sample.txt_secret))
               (Sample.post None "")) = [up]
      ∧ py_getitem (up_data up) "user"
        = Ok (JStr (uuid4 (Sample.world Sample.key_and_workflow
                             (UpResponse Sample.txt_secret)))).
Proof.
  apply (set_cookie_only_on_success
           (Sample.world Sample.key_and_workflow (UpResponse Sample.txt_secret))
           (Sample.post None "")
           (success_response true Sample.fresh_uuid (JStr "sk_abc"))
           (set_cookie_value Sample.fresh_uuid) []);
    vm_compute; reflexivity.
Defined.

(** ** The upstream call *)

(** X4. [do_POST] calls the upstream at most once, so no outcome of the
    call is retried; and it calls it only when [OPENAI_API_KEY] is set to a
    non-empty string, the body was parsed and the workflow id resolved to a
    truthy value, and [urllib.request.Request] accepted the URL.  The
    upstream is never called without a key or without a workflow id. *)
Theorem upstream_called_at_most_once (w : World) (req : Request) :
  (length (calls (do_POST w req)) ≤ 1)%nat
  ∧ ∀ up,
      calls (do_POST w req) = [up] →
      truthy (of_opt_str (getenv w "OPENAI_API_KEY")) = true
      ∧ (∃ v, (parse_body w req ≫= resolve_workflow_id w) = Ok v
              ∧ truthy v = true)
      ∧ request_error w (up_url up) = None.
Proof.
  destruct (do_POST_cases w req)
    as [[Hk ->]|[(Hk & e & He & ->)|[(Hk & _ & ->)
       |[(Hk & v & str_e & _ & _ & _ & ->)
        |(Hk & k & v & _ & Hv & Ht & Hreq & ->)]]]];
    cbn [calls length]; (split; [lia|]); intros up [=].
  subst up. eauto.
Qed.

Lemma upstream_called_at_most_once_witness :
  truthy (of_opt_str (Sample.env_of Sample.key_and_workflow "OPENAI_API_KEY"))
  = true
  ∧ (∃ v,
       (parse_body
          (Sample.world Sample.key_and_workflow
             (UpException "<urlopen error timed out>"))
          (Sample.post None "")
        ≫= resolve_workflow_id
             (Sample.world Sample.key_and_workflow
                (UpException "<urlopen error timed out>"))) = Ok v
       ∧ truthy v = true)
  ∧ Sample.request_check
      (up_url (upstream_request
                 (Sample.world Sample.key_and_workflow
                    (UpException "<urlopen error timed out>"))
                 "sk-test" (JStr "wf_env") Sample.fresh_uuid)) = None.
Proof.
  apply (proj2 (upstream_called_at_most_once
                  (Sample.world Sample.key_and_workflow
                     (UpException "<urlopen error timed out>"))
                  (Sample.post None ""))
           (upstream_request
              (Sample.world Sample.key_and_workflow
                 (UpException "<urlopen error timed out>"))
              "sk-test" (JStr "wf_env") Sample.fresh_uuid)).
  vm_compute. reflexivity.
Defined.

(** X5. The one upstream call of [do_POST] is a POST with a timeout of 10
    seconds to [<base>/v1/chatkit/sessions]; it carries the API key of the
    environment, which is not empty, as bearer token, the beta header and
    the JSON content type; its payload has the two members [workflow], an
    object with the single member [id] holding a truthy id, and [user], and
    nothing else of the request body. *)
Theorem upstream_request_shape
    (w : World) (req : Request) (up : UpstreamRequest) :
  calls (do_POST w req) = [up] →
  ∃ api_key workflow_id,
    getenv w "OPENAI_API_KEY" = Some api_key
    ∧ api_key ≠ EmptyString
    ∧ truthy workflow_id = true
    ∧ up_method up = "POST"
    ∧ up_timeout up = 10
    ∧ up_url up = api_base w +:+ "/v1/chatkit/sessions"
    ∧ up_headers up = [("Authorization", "Bearer " +:+ api_key);
                       ("OpenAI-Beta", "chatkit_beta=v1");
                       ("Content-Type", "application/json")]
    ∧ ∃ m, up_data up = JObj m
           ∧ dom m = {[ "workflow"; "user" ]}
           ∧ m !! "workflow" = Some (JObj {[ "id" := workflow_id ]})
           ∧ m !! "user"
             = Some (JStr (default (uuid4 w) (session_cookie req))).
Proof.
  intros Hcall.
  destruct (do_POST_cases w req)
    as [[_ Hr]|[(_ & e & _ & Hr)|[(_ & _ & Hr)
       |[(_ & v & str_e & _ & _ & _ & Hr)
        |(Hk & k & v & Hkey & _ & Hv & _ & Hr)]]]];
    rewrite Hr in Hcall; cbn [calls] in Hcall; try discriminate.
  injection Hcall as <-. exists k, v.
  split; [done|]. split.
  { intros ->. by rewrite Hkey in Hk. }
  repeat (split; [done|]).
  eexists. split; [reflexivity|]. split; [|split].
  - rewrite dom_insert_L, dom_singleton_L. done.
  - by rewrite lookup_insert_eq.
  - rewrite lookup_insert_ne by done. by rewrite lookup_singleton_eq.
Qed.

Lemma upstream_request_shape_witness :
  ∃ api_key workflow_id,
    Sample.env_of Sample.key_only "OPENAI_API_KEY" = Some api_key
    ∧ api_key ≠ EmptyString
    ∧ truthy workflow_id = true
    ∧ up_method
        (upstream_request
           (Sample.world Sample.key_only (UpResponse Sample.txt_secret))
           "sk-test" (JStr "A") "abc") = "POST"
    ∧ up_timeout
        (upstream_request
           (Sample.world Sample.key_only (UpResponse Sample.txt_secret))
           "sk-test" (JStr "A") "abc") = 10
    ∧ up_url
        (upstream_request
           (Sample.world Sample.key_only (UpResponse Sample.txt_secret))
           "sk-test" (JStr "A") "abc")
      = api_base (Sample.world Sample.key_only (UpResponse Sample.txt_secret))
        +:+ "/v1/chatkit/sessions"
    ∧ up_headers
        (upstream_request
           (Sample.world Sample.key_only (UpResponse Sample.txt_secret))
           "sk-test" (JStr "A") "abc")
      = [("Authorization", "Bearer " +:+ api_key);
         ("OpenAI-Beta", "chatkit_beta=v1");
         ("Content-Type", "application/json")]
    ∧ ∃ m, up_data
             (upstream_request
                (Sample.world Sample.key_only (UpResponse Sample.txt_secret))
                "sk-test" (JStr "A") "abc") = JObj m
           ∧ dom m = {[ "workflow"; "user" ]}
           ∧ m !! "workflow" = Some (JObj {[ "id" := workflow_id ]})
           ∧ m !! "user"
             = Some (JStr (default
                             (uuid4 (Sample.world Sample.key_only
                                       (UpResponse Sample.txt_secret)))
                             (session_cookie
                                (Sample.post (Some "chatkit_session_id=abc")
                                   Sample.txt_both_ids)))).
Proof.
  apply (upstream_request_shape
           (Sample.world Sample.key_only (UpResponse Sample.txt_secret))
           (Sample.post (Some "chatkit_session_id=abc") Sample.txt_both_ids)).
  vm_compute. reflexivity.
Defined.

(** X6. The base URL of the upstream call is [CHATKIT_API_BASE] when that
    variable is set and not empty, else [VITE_CHATKIT_API_BASE] when that
    one is set and not empty, else [https://api.openai.com]; a variable set
    to the empty string counts as unset. *)
Theorem api_base_precedence
    (w : World) (req : Request) (up : UpstreamRequest) :
  calls (do_POST w req) = [up] →
  (∀ a, getenv w "CHATKIT_API_BASE" = Some a → a ≠ EmptyString →
        up_url up = a +:+ "/v1/chatkit/sessions")
  ∧ (getenv w "CHATKIT_API_BASE" = None
     ∨ getenv w "CHATKIT_API_BASE" = Some EmptyString →
     (∀ b, getenv w "VITE_CHATKIT_API_BASE" = Some b → b ≠ EmptyString →
           up_url up = b +:+ "/v1/chatkit/sessions")
     ∧ (getenv w "VITE_CHATKIT_API_BASE" = None
        ∨ getenv w "VITE_CHATKIT_API_BASE" = Some EmptyString →
        up_url up = "https://api.openai.com/v1/chatkit/sessions")).
Proof.
  intros Hcall.
  destruct (do_POST_called w req up Hcall) as (k & v & _ & _ & _ & -> & _).
  cbn [upstream_request up_url]. split; [|intros Ha; split].
  - intros a -> Ha. by destruct a.
  - intros b Hb Hne.
    destruct Ha as [-> | ->]; rewrite Hb; cbn [str_or]; by destruct b.
  - intros Hb.
    by destruct Ha as [-> | ->]; destruct Hb as [-> | ->].
Qed.

Lemma api_base_precedence_witness :
  up_url
    (upstream_request
       (Sample.world
          [("OPENAI_API_KEY", "sk-test");
           ("VITE_CHATKIT_WORKFLOW_ID", "wf_env");
           ("CHATKIT_API_BASE", "");
           ("VITE_CHATKIT_API_BASE", "http://localhost:8000")]
          (UpResponse Sample.txt_secret))
       "sk-test" (JStr "wf_env") Sample.fresh_uuid)
  = "http://localhost:8000" +:+ "/v1/chatkit/sessions".
Proof.
  apply (proj1 (proj2 (api_base_precedence
                  (Sample.world
                     [("OPENAI_API_KEY", "sk-test");
                      ("VITE_CHATKIT_WORKFLOW_ID", "wf_env");
                      ("CHATKIT_API_BASE", "");
                      ("VITE_CHATKIT_API_BASE", "http://localhost:8000")]
                     (UpResponse Sample.txt_secret))
                  (Sample.post None "")
                  _ ltac:(vm_compute; reflexivity))
                ltac:(right; reflexivity)));
    [reflexivity | discriminate].
Defined.

(** X7. An [OPENAI_API_KEY] that is set to the empty string is treated as
    a missing key: the answer is 500 [Missing OPENAI_API_KEY] and the
    upstream is not called. *)
Theorem empty_api_key_is_500 (w : World) (req : Request) :
  getenv w "OPENAI_API_KEY" = Some EmptyString →
  calls (do_POST w req) = []
  ∧ answers_error (do_POST w req) 500 (JStr "Missing OPENAI_API_KEY").
Proof.
  intros Hkey. unfold answers_error, do_POST. rewrite Hkey. cbn. eauto.
Qed.

Lemma empty_api_key_is_500_witness :
  calls (do_POST
           (Sample.world [("OPENAI_API_KEY", "")] (UpResponse Sample.txt_secret))
           (Sample.post None Sample.txt_both_ids)) = []
  ∧ answers_error
      (do_POST
         (Sample.world [("OPENAI_API_KEY", "")] (UpResponse Sample.txt_secret))
         (Sample.post None Sample.txt_both_ids))
      500 (JStr "Missing OPENAI_API_KEY").
Proof.
  apply (empty_api_key_is_500
           (Sample.world [("OPENAI_API_KEY", "")] (UpResponse Sample.txt_secret))
           (Sample.post None Sample.txt_both_ids)).
  reflexivity.
Defined.

(** ** Reading the request body *)

Lemma substring_idemp (n : nat) (s : string) :
  String.substring 0 n (String.substring 0 n s) = String.substring 0 n s.
Proof.
  revert s. induction n as [|n IH]; intros [|c s]; cbn; try done.
  by rewrite IH.
Qed.

Lemma rfile_read_zero (w : World) (data : string) :
  rfile_read w data 0 = ReadOk EmptyString.
Proof.
  unfold rfile_read.
  change ((0 <? - 2 ^ 63) || (2 ^ 63 <=? 0)) with false.
  change (0 <? -1) with false. change (0 =? -1) with false.
  destruct (Z.leb_spec 0 (Z.of_N (alloc_limit w))) as [_|Hneg]; [|lia].
  by destruct data.
Qed.

Lemma rfile_read_truncated (w : World) (data : string) (n : Z) :
  0 ≤ n →
  rfile_read w (String.substring 0 (Z.to_nat n) data) n = rfile_read w data n.
Proof.
  intros Hn. unfold rfile_read.
  destruct ((n <? - 2 ^ 63) || (2 ^ 63 <=? n)); [done|].
  destruct (Z.ltb_spec n (-1)); [done|].
  destruct (Z.eqb_spec n (-1)); [lia|].
  destruct (n <=? Z.of_N (alloc_limit w)); [|done].
  by rewrite substring_idemp.
Qed.

(** X8. A POST without a [Content-Length] field has its body ignored: zero
    bytes are read, the body is the empty mapping whatever is waiting on
    [rfile], and the workflow id is the environment default. *)
Theorem missing_content_length_ignores_body (w : World) (req : Request) :
  headers_get (req_headers req) "Content-Length" = None →
  body_bytes w req = ReadOk EmptyString
  ∧ parse_body w req = Ok (JObj ∅)
  ∧ (parse_body w req ≫= resolve_workflow_id w)
    = Ok (of_opt_str (getenv w "VITE_CHATKIT_WORKFLOW_ID")).
Proof.
  intros Hlen.
  assert (body_bytes w req = ReadOk EmptyString) as Hbytes.
  { unfold body_bytes, content_length. rewrite Hlen. apply rfile_read_zero. }
  split; [done|].
  rewrite (parse_body_fallback w req EmptyString Hbytes) by auto.
  split; [done|]. apply resolve_empty.
Qed.

Lemma missing_content_length_ignores_body_witness :
  body_bytes (Sample.world Sample.key_and_workflow (UpResponse Sample.txt_secret))
             {| req_headers := [("Content-Type", "application/json")];
                rfile := Sample.txt_both_ids |}
  = ReadOk EmptyString
  ∧ parse_body
      (Sample.world Sample.key_and_workflow (UpResponse Sample.txt_secret))
      {| req_headers := [("Content-Type", "application/json")];
         rfile := Sample.txt_both_ids |}
    = Ok (JObj ∅)
  ∧ (parse_body
       (Sample.world Sample.key_and_workflow (UpResponse Sample.txt_secret))
       {| req_headers := [("Content-Type", "application/json")];
          rfile := Sample.txt_both_ids |}
     ≫= resolve_workflow_id
          (Sample.world Sample.key_and_workflow (UpResponse Sample.txt_secret)))
    = Ok (JStr "wf_env").
Proof.
  apply (missing_content_length_ignores_body
           (Sample.world Sample.key_and_workflow (UpResponse Sample.txt_secret))
           {| req_headers := [("Content-Type", "application/json")];
              rfile := Sample.txt_both_ids |}).
  reflexivity.
Defined.

(** X9. A [Content-Length] that [int] rejects with a [ValueError] is
    swallowed by the [except] clause of the body parser: nothing is read,
    the body is the empty mapping, whatever is waiting on [rfile], and the
    workflow id is the environment default. *)
Theorem rejected_content_length_is_empty_mapping
    (w : World) (req : Request) (s : string) :
  headers_get (req_headers req) "Content-Length" = Some s →
  int_of_str w s = None →
  body_bytes w req = ReadValueError
  ∧ parse_body w req = Ok (JObj ∅)
  ∧ (parse_body w req ≫= resolve_workflow_id w)
    = Ok (of_opt_str (getenv w "VITE_CHATKIT_WORKFLOW_ID")).
Proof.
  intros Hs Hbad.
  assert (body_bytes w req = ReadValueError) as Hbytes.
  { unfold body_bytes, content_length. by rewrite Hs, Hbad. }
  split; [done|].
  rewrite (parse_body_bad_length w req Hbytes).
  split; [done|]. apply resolve_empty.
Qed.

Lemma rejected_content_length_is_empty_mapping_witness :
  body_bytes
    (Sample.world Sample.key_and_workflow (UpResponse Sample.txt_secret))
    {| req_headers := [("Content-Length", "12 bytes")];
       rfile := Sample.txt_both_ids |}
  = ReadValueError
  ∧ parse_body
      (Sample.world Sample.key_and_workflow (UpResponse Sample.txt_secret))
      {| req_headers := [("Content-Length", "12 bytes")];
         rfile := Sample.txt_both_ids |}
    = Ok (JObj ∅)
  ∧ (parse_body
       (Sample.world Sample.key_and_workflow (UpResponse Sample.txt_secret))
       {| req_headers := [("Content-Length", "12 bytes")];
          rfile := Sample.txt_both_ids |}
     ≫= resolve_workflow_id
          (Sample.world Sample.key_and_workflow (UpResponse Sample.txt_secret)))
    = Ok (JStr "wf_env").
Proof.
  apply (rejected_content_length_is_empty_mapping
           (Sample.world Sample.key_and_workflow (UpResponse Sample.txt_secret))
           {| req_headers := [("Content-Length", "12 bytes")];
              rfile := Sample.txt_both_ids |}
           "12 bytes");
    reflexivity.
Defined.

(** X10. Only the first [Content-Length] bytes of the body count: when the
    length is a number [n ≥ 0], the run is the same as on the request whose
    body is cut after [n] bytes. *)
Theorem body_is_cut_at_content_length (w : World) (req : Request) (n : Z) :
  content_length w req = Some n →
  0 ≤ n →
  parse_body w req = parse_body w (truncated req (Z.to_nat n))
  ∧ do_POST w req = do_POST w (truncated req (Z.to_nat n)).
Proof.
  intros Hlen Hn.
  assert (parse_body w req = parse_body w (truncated req (Z.to_nat n))) as Hbody.
  { unfold parse_body, body_bytes.
    change (content_length w (truncated req (Z.to_nat n)))
      with (content_length w req).
    rewrite Hlen. cbn [truncated rfile].
    by rewrite rfile_read_truncated. }
  split; [done|]. unfold do_POST. by rewrite <- Hbody.
Qed.

Lemma body_is_cut_at_content_length_witness :
  parse_body
    (Sample.world Sample.key_and_workflow (UpResponse Sample.txt_secret))
    {| req_headers := [("Content-Length", "2")]; rfile := "{}, trailing" |}
  = parse_body
      (Sample.world Sample.key_and_workflow (UpResponse Sample.txt_secret))
      (truncated
         {| req_headers := [("Content-Length", "2")]; rfile := "{}, trailing" |}
         (Z.to_nat 2))
  ∧ do_POST
      (Sample.world Sample.key_and_workflow (UpResponse Sample.txt_secret))
      {| req_headers := [("Content-Length", "2")]; rfile := "{}, trailing" |}
    = do_POST
        (Sample.world Sample.key_and_workflow (UpResponse Sample.txt_secret))
        (truncated
           {| req_headers := [("Content-Length", "2")];
              rfile := "{}, trailing" |}
           (Z.to_nat 2)).
Proof.
  apply (body_is_cut_at_content_length
           (Sample.world Sample.key_and_workflow (UpResponse Sample.txt_secret))
           {| req_headers := [("Content-Length", "2")];
              rfile := "{}, trailing" |} 2);
    [reflexivity | lia].
Defined.

(** ** When the handler raises, and when it reports a missing secret *)

(** X11. The [except] clause of the body parser catches [ValueError] only.
    With the API key set, an exception of another class raised by
    [rfile.read] (an [OverflowError] or [MemoryError] for a huge
    [Content-Length]) or by [json.loads] on the body (a [RecursionError]
    for a deeply nested text) escapes [do_POST]: no response is built and
    the upstream is not called. *)
Theorem body_parser_exceptions_escape
    (w : World) (req : Request) (e : pyexc) :
  truthy (of_opt_str (getenv w "OPENAI_API_KEY")) = true →
  is_value_error e = false →
  body_bytes w req = ReadRaised e
  ∨ (∃ bytes, body_bytes w req = ReadOk bytes
              ∧ String.length bytes ≠ 0%nat
              ∧ json_loads w bytes = LoadsRaised e) →
  parse_body w req = Raise e
  ∧ do_POST w req = {| calls := []; result_of := Unhandled e |}.
Proof.
  intros Hkey He Hraise.
  assert (parse_body w req = Raise e) as Hbody.
  { unfold parse_body.
    destruct Hraise as [-> | (bytes & -> & Hlen & ->)]; rewrite He; [done|].
    by destruct (Nat.eqb_spec (String.length bytes) 0). }
  split; [done|]. unfold do_POST.
  destruct (getenv w "OPENAI_API_KEY") as [[|c k]|]; try discriminate.
  by rewrite Hbody.
Qed.

Lemma body_parser_exceptions_escape_witness :
  parse_body
    (Sample.world Sample.key_and_workflow (UpResponse Sample.txt_secret))
    {| req_headers := [("Content-Length", "100000000000000000000")];
       rfile := EmptyString |}
  = Raise (Exc OverflowError "cannot fit 'int' into an index-sized integer")
  ∧ do_POST
      (Sample.world Sample.key_and_workflow (UpResponse Sample.txt_secret))
      {| req_headers := [("Content-Length", "100000000000000000000")];
         rfile := EmptyString |}
    = {| calls := [];
         result_of :=
           Unhandled
             (Exc OverflowError "cannot fit 'int' into an index-sized integer") |}.
Proof.
  apply (body_parser_exceptions_escape
           (Sample.world Sample.key_and_workflow (UpResponse Sample.txt_secret))
           {| req_headers := [("Content-Length", "100000000000000000000")];
              rfile := EmptyString |}
           (Exc OverflowError "cannot fit 'int' into an index-sized integer"));
    [reflexivity | reflexivity | left; reflexivity].
Defined.

(** X12. A 2xx upstream object whose [client_secret] member is present but
    falsy (the empty string, [null], [false], [0], an empty list or
    object) is reported like a missing one: 502 [Missing client secret]. *)
Theorem falsy_client_secret_is_missing
    (w : World) (req : Request) (up : UpstreamRequest)
    (raw : string) (m : gmap string json) (v : json) :
  calls (do_POST w req) = [up] →
  urlopen w up = UpResponse raw →
  json_loads w raw = Loaded (JObj m) →
  m !! "client_secret" = Some v →
  truthy v = false →
  answers_error (do_POST w req) 502 (JStr "Missing client secret").
Proof.
  intros Hcall Hup Hload Hm Hv.
  destruct (do_POST_called w req up Hcall) as (k & wid & _ & _ & _ & _ & Hres).
  unfold answers_error. rewrite Hres, Hup.
  rewrite (relay_falsy_secret _ _ _ raw m Hload) by (by rewrite Hm). eauto.
Qed.

Lemma falsy_client_secret_is_missing_witness :
  answers_error
    (do_POST
       (Sample.world Sample.key_and_workflow
          (UpResponse Sample.txt_empty_secret))
       (Sample.post None ""))
    502 (JStr "Missing client secret").
Proof.
  apply (falsy_client_secret_is_missing
           (Sample.world Sample.key_and_workflow
              (UpResponse Sample.txt_empty_secret))
           (Sample.post None "")
           (upstream_request
              (Sample.world Sample.key_and_workflow
                 (UpResponse Sample.txt_empty_secret))
              "sk-test" (JStr "wf_env") Sample.fresh_uuid)
           Sample.txt_empty_secret
           {[ "client_secret" := JStr "" ]} (JStr ""));
    vm_compute; reflexivity.
Defined.

(** ** Cookies: composing and round trips *)

Section CookieComposition.

Lemma split_nonempty (sep : ascii) (s : string) : PyStr.split sep s ≠ [].
Proof.
  induction s as [|c s IH]; cbn [PyStr.split]; [done|].
  destruct (Ascii.eqb c sep); [done|]. by destruct (PyStr.split sep s).
Qed.

Lemma split_app (sep : ascii) (a b : string) :
  PyStr.split sep (a +:+ String sep b) = PyStr.split sep a ++ PyStr.split sep b.
Proof.
  induction a as [|c a IH].
  - change (EmptyString +:+ String sep b) with (String sep b).
    cbn [PyStr.split]. by rewrite Ascii.eqb_refl.
  - rewrite app_cons. cbn [PyStr.split]. rewrite IH.
    destruct (Ascii.eqb c sep); [done|].
    pose proof (split_nonempty sep a). by destruct (PyStr.split sep a).
Qed.

Lemma split_lacks (sep : ascii) (a : string) :
  lacks sep a → PyStr.split sep a = [a].
Proof.
  unfold lacks. induction a as [|c a IH]; cbn [PyStr.split PyStr.partition];
    [done|].
  destruct (Ascii.eqb c sep); [done|].
  destruct (PyStr.partition sep a) as [[x y]|]; [done|].
  intros _. by rewrite IH.
Qed.

Lemma lacks_app (sep : ascii) (a b : string) :
  lacks sep a → lacks sep b → lacks sep (a +:+ b).
Proof.
  unfold lacks. induction a as [|c a IH]; [done|].
  rewrite app_cons. cbn [PyStr.partition].
  destruct (Ascii.eqb c sep); [done|].
  destruct (PyStr.partition sep a) as [[x y]|]; [done|].
  intros _ Hb. by rewrite IH.
Qed.

Lemma rstrip_app_keep (p u : string) :
  PyStr.rstrip p = p → p ≠ EmptyString → PyStr.rstrip u = u →
  PyStr.rstrip (p +:+ u) = p +:+ u.
Proof.
  intros Hp Hne Hu. induction p as [|c p IH]; [done|].
  rewrite app_cons. cbn [PyStr.rstrip].
  destruct p as [|d p].
  - change (EmptyString +:+ u) with u. rewrite Hu.
    cbn [PyStr.rstrip] in Hp. destruct (PyStr.isspace c); [done|].
    by destruct u.
  - rewrite IH; [|by apply rstrip_tail in Hp|done]. by rewrite app_cons.
Qed.

Lemma get_cookie_loop_app (l1 l2 : list string) (name : string) :
  get_cookie_loop (l1 ++ l2) name
  = match get_cookie_loop l1 name with
    | Some v => Some v
    | None => get_cookie_loop l2 name
    end.
Proof.
  induction l1 as [|c l1 IH]; [done|]. cbn [app get_cookie_loop].
  by destruct (PyStr.startswith _ _).
Qed.

(** The pair [chatkit_session_id=u] alone, possibly after white space. *)
Lemma get_cookie_loop_own_pair (u : string) (rest : list string) :
  PyStr.rstrip u = u →
  get_cookie_loop (("chatkit_session_id=" +:+ u) :: rest) "chatkit_session_id"
  = Some u
  ∧ get_cookie_loop ((" chatkit_session_id=" +:+ u) :: rest)
      "chatkit_session_id"
    = Some u.
Proof.
  intros Hu.
  assert (PyStr.strip ("chatkit_session_id=" +:+ u) = "chatkit_session_id=" +:+ u)
    as Hstrip.
  { unfold PyStr.strip.
    change (PyStr.lstrip ("chatkit_session_id=" +:+ u))
      with ("chatkit_session_id=" +:+ u).
    by apply rstrip_app_keep. }
  assert (get_cookie_loop (("chatkit_session_id=" +:+ u) :: rest)
            "chatkit_session_id" = Some u) as Hfirst.
  { cbn [get_cookie_loop]. rewrite Hstrip.
    change ("chatkit_session_id" +:+ "=") with "chatkit_session_id=".
    unfold PyStr.startswith. rewrite prefix_app.
    unfold PyStr.split1.
    change ("chatkit_session_id=" +:+ u)
      with ("chatkit_session_id" +:+ String "=" u).
    by rewrite partition_app. }
  split; [done|].
  cbn [get_cookie_loop] in Hfirst |- *.
  change (PyStr.strip (" chatkit_session_id=" +:+ u))
    with (PyStr.strip ("chatkit_session_id=" +:+ u)).
  done.
Qed.

Lemma get_cookie_value_app (a b name : string) :
  get_cookie_value (a +:+ String ";" b) name
  = match get_cookie_value a name with
    | Some v => Some v
    | None => get_cookie_value b name
    end.
Proof. unfold get_cookie_value. by rewrite split_app, get_cookie_loop_app. Qed.

End CookieComposition.

(** X13. Looking a cookie up in two headers joined by [;] is looking it up
    in the first and, only when it is absent there, in the second: earlier
    pairs shadow later ones and unrelated pairs do not matter. *)
Theorem cookie_lookup_concat (a b name : string) :
  get_cookie_value (a +:+ ";" +:+ b) name
  = match get_cookie_value a name with
    | Some v => Some v
    | None => get_cookie_value b name
    end.
Proof.
  change (a +:+ ";" +:+ b) with (a +:+ String ";" b).
  apply get_cookie_value_app.
Qed.

(** X14. What the handler sets it reads back.  For an identity [u] without
    [;] and without white space at its end, the lookup on the [Set-Cookie]
    value the handler builds for [u], on the bare pair
    [chatkit_session_id=u], and on that pair appended with [; ] to a header
    that has no such cookie, returns exactly [u]. *)
Theorem set_cookie_round_trip (u other : string) :
  lacks ";" u →
  PyStr.rstrip u = u →
  get_cookie_value (set_cookie_value u) "chatkit_session_id" = Some u
  ∧ get_cookie_value ("chatkit_session_id=" +:+ u) "chatkit_session_id"
    = Some u
  ∧ (get_cookie_value other "chatkit_session_id" = None →
     get_cookie_value (other +:+ "; chatkit_session_id=" +:+ u)
       "chatkit_session_id" = Some u).
Proof.
  intros Hsemi Hu.
  assert (lacks ";" ("chatkit_session_id=" +:+ u)) as Hpair
    by (by apply lacks_app).
  assert (lacks ";" (" chatkit_session_id=" +:+ u)) as Hpair'
    by (by apply lacks_app).
  split; [|split].
  - unfold get_cookie_value, set_cookie_value.
    change ("chatkit_session_id=" +:+ u
            +:+ "; Path=/; Max-Age=2592000; HttpOnly; SameSite=Lax")
      with ("chatkit_session_id=" +:+
            (u +:+ String ";" " Path=/; Max-Age=2592000; HttpOnly; SameSite=Lax")).
    rewrite <- app_assoc_str, split_app, (split_lacks _ _ Hpair).
    apply (get_cookie_loop_own_pair u _ Hu).
  - unfold get_cookie_value. rewrite (split_lacks _ _ Hpair).
    apply (get_cookie_loop_own_pair u _ Hu).
  - intros Hother.
    change (other +:+ "; chatkit_session_id=" +:+ u)
      with (other +:+ String ";" (" chatkit_session_id=" +:+ u)).
    rewrite get_cookie_value_app, Hother.
    unfold get_cookie_value. rewrite (split_lacks _ _ Hpair').
    apply (get_cookie_loop_own_pair u _ Hu).
Qed.

Lemma set_cookie_round_trip_witness :
  get_cookie_value (set_cookie_value Sample.fresh_uuid) "chatkit_session_id"
  = Some Sample.fresh_uuid
  ∧ get_cookie_value ("chatkit_session_id=" +:+ Sample.fresh_uuid)
      "chatkit_session_id" = Some Sample.fresh_uuid
  ∧ (get_cookie_value "theme=dark; lang=en" "chatkit_session_id" = None →
     get_cookie_value
       ("theme=dark; lang=en" +:+ "; chatkit_session_id=" +:+ Sample.fresh_uuid)
       "chatkit_session_id" = Some Sample.fresh_uuid).
Proof.
  apply (set_cookie_round_trip Sample.fresh_uuid "theme=dark; lang=en");
    reflexivity.
Defined.




(** ** The preflight *)

(** X16. The preflight response of [do_OPTIONS] has status 200, no body
    and no [Content-Type]; each of its three CORS fields is also on every
    200 response of [do_POST], with the same value, while an error response
    of [do_POST] has, of the three, only [Access-Control-Allow-Origin]. *)
Theorem preflight_and_post_cors (w : World) (req : Request) (r : Response) :
  result_of (do_POST w req) = Responded r →
  status do_OPTIONS = 200
  ∧ body do_OPTIONS = None
  ∧ header_values "Content-Type" do_OPTIONS = []
  ∧ header_values "Access-Control-Allow-Origin" r
    = header_values "Access-Control-Allow-Origin" do_OPTIONS
  ∧ ((∃ v, body r = Some (JObj {[ "client_secret" := v ]})) →
     header_values "Access-Control-Allow-Methods" r
     = header_values "Access-Control-Allow-Methods" do_OPTIONS
     ∧ header_values "Access-Control-Allow-Headers" r
       = header_values "Access-Control-Allow-Headers" do_OPTIONS)
  ∧ ((∃ message, body r = Some (JObj {[ "error" := message ]})) →
     header_values "Access-Control-Allow-Methods" r = []
     ∧ header_values "Access-Control-Allow-Headers" r = []).
Proof.
  intros [(code & msg & ->)|(up & v & _ & _ & _ & ->)]%do_POST_responses.
  - repeat (split; [done|]). split; [|done].
    by intros [v [=]].
  - repeat (split; [done|]).
    split; [by destruct (bool_decide (session_cookie req = None))|].
    split; [intros _; by destruct (bool_decide (session_cookie req = None))|].
    by intros [msg [=]].
Qed.

Lemma preflight_and_post_cors_witness :
  status do_OPTIONS = 200
  ∧ body do_OPTIONS = None
  ∧ header_values "Content-Type" do_OPTIONS = []
  ∧ header_values "Access-Control-Allow-Origin"
      (success_response true Sample.fresh_uuid (JStr "sk_abc"))
    = header_values "Access-Control-Allow-Origin" do_OPTIONS
  ∧ ((∃ v, body (success_response true Sample.fresh_uuid (JStr "sk_abc"))
           = Some (JObj {[ "client_secret" := v ]})) →
     header_values "Access-Control-Allow-Methods"
       (success_response true Sample.fresh_uuid (JStr "sk_abc"))
     = header_values "Access-Control-Allow-Methods" do_OPTIONS
     ∧ header_values "Access-Control-Allow-Headers"
         (success_response true Sample.fresh_uuid (JStr "sk_abc"))
       = header_values "Access-Control-Allow-Headers" do_OPTIONS)
  ∧ ((∃ message,
        body (success_response true Sample.fresh_uuid (JStr "sk_abc"))
        = Some (JObj {[ "error" := message ]})) →
     header_values "Access-Control-Allow-Methods"
       (success_response true Sample.fresh_uuid (JStr "sk_abc")) = []
     ∧ header_values "Access-Control-Allow-Headers"
         (success_response true Sample.fresh_uuid (JStr "sk_abc")) = []).
Proof.
  apply (preflight_and_post_cors
           (Sample.world Sample.key_and_workflow (UpResponse Sample.txt_secret))
           (Sample.post None "")).
  vm_compute. reflexivity.
Defined.

(** ** Status codes, and what of the request is read *)

(** X17. The status of a response of [do_POST] is 500 or 400 when the
    upstream was not called, and otherwise follows the outcome of the one
    upstream call: the code of the upstream HTTP error, 502 for any other
    exception, and 200 or 502 when the upstream returned a response. *)
Theorem status_follows_upstream (w : World) (req : Request) (r : Response) :
  result_of (do_POST w req) = Responded r →
  (calls (do_POST w req) = [] ∧ (status r = 500 ∨ status r = 400))
  ∨ (∃ up, calls (do_POST w req) = [up]
           ∧ match urlopen w up with
             | UpHTTPError code _ _ => status r = code
             | UpException _ => status r = 502
             | UpResponse _ => status r = 200 ∨ status r = 502
             end).
Proof.
  destruct (do_POST_cases w req)
    as [[_ ->]|[(_ & e & _ & ->)|[(_ & _ & ->)
       |[(_ & v & str_e & _ & _ & _ & ->)|(_ & k & v & _ & _ & _ & _ & ->)]]]];
    cbn [result_of calls]; try (by intros [= <-]; left; auto); try done.
  intros [= <-]. right. eexists. split; [done|].
  destruct (urlopen w _) as [raw|code str_e raw|str_e]; cbn [relay]; try done.
  destruct (json_loads w raw) as [res|e|e]; [|by right..].
  destruct (py_get res "client_secret" JNull) as [cs|e]; [|by right].
  destruct (truthy cs); cbn; auto.
Qed.

Lemma status_follows_upstream_witness :
  (calls (do_POST
            (Sample.world Sample.key_and_workflow
               (UpHTTPError 429 "HTTP Error 429: Too Many Requests"
                  Sample.txt_rate_limited))
            (Sample.post None "")) = []
   ∧ (status (send_error_response 429 (JStr "rate limited")) = 500
      ∨ status (send_error_response 429 (JStr "rate limited")) = 400))
  ∨ (∃ up,
       calls (do_POST
                (Sample.world Sample.key_and_workflow
                   (UpHTTPError 429 "HTTP Error 429: Too Many Requests"
                      Sample.txt_rate_limited))
                (Sample.post None "")) = [up]
       ∧ match urlopen
                 (Sample.world Sample.key_and_workflow
                    (UpHTTPError 429 "HTTP Error 429: Too Many Requests"
                       Sample.txt_rate_limited)) up with
         | UpHTTPError code _ _ =>
             status (send_error_response 429 (JStr "rate limited")) = code
         | UpException _ =>
             status (send_error_response 429 (JStr "rate limited")) = 502
         | UpResponse _ =>
             status (send_error_response 429 (JStr "rate limited")) = 200
             ∨ status (send_error_response 429 (JStr "rate limited")) = 502
         end).
Proof.
  apply (status_follows_upstream
           (Sample.world Sample.key_and_workflow
              (UpHTTPError 429 "HTTP Error 429: Too Many Requests"
                 Sample.txt_rate_limited))
           (Sample.post None "")).
  vm_compute. reflexivity.
Defined.

(** X18. Of the request, [do_POST] reads the [Content-Length] field, the
    [Cookie] field and the body, and nothing else: two requests that agree
    on these give the same run.  In particular the request's
    [Content-Type] is never looked at. *)
Theorem only_length_cookie_and_body_are_read
    (w : World) (req1 req2 : Request) :
  headers_get (req_headers req1) "Content-Length"
  = headers_get (req_headers req2) "Content-Length" →
  headers_get (req_headers req1) "Cookie"
  = headers_get (req_headers req2) "Cookie" →
  rfile req1 = rfile req2 →
  do_POST w req1 = do_POST w req2.
Proof.
  intros Hlen Hcookie Hbody.
  unfold do_POST, parse_body, body_bytes, content_length.
  by rewrite Hlen, Hcookie, Hbody.
Qed.

Lemma only_length_cookie_and_body_are_read_witness :
  do_POST (Sample.world Sample.key_only (UpResponse Sample.txt_secret))
          {| req_headers := [("Content-Type", "text/plain");
                             ("content-length", "44");
                             ("Origin", "https://example.org")];
             rfile := Sample.txt_both_ids |}
  = do_POST (Sample.world Sample.key_only (UpResponse Sample.txt_secret))
            {| req_headers := [("Content-Length", "44")];
               rfile := Sample.txt_both_ids |}.
Proof.
  apply (only_length_cookie_and_body_are_read
           (Sample.world Sample.key_only (UpResponse Sample.txt_secret))
           {| req_headers := [("Content-Type", "text/plain");
                              ("content-length", "44");
                              ("Origin", "https://example.org")];
              rfile := Sample.txt_both_ids |}
           {| req_headers := [("Content-Length", "44")];
              rfile := Sample.txt_both_ids |});
    reflexivity.
Defined.

(** ** A URL that [Request] rejects *)

(** X19. The [Request] object is built outside the [try].  When
    [urllib.request.Request] rejects the upstream URL (a base URL without a
    scheme), [do_POST] never calls the upstream, and the only responses it
    sends are the 500 for a missing key and the 400 for a missing workflow
    id: a request that passes both checks gets no response. *)
Theorem rejected_url_never_calls
    (w : World) (req : Request) (str_e : string) :
  request_error w (api_base w +:+ "/v1/chatkit/sessions") = Some str_e →
  calls (do_POST w req) = []
  ∧ ∀ r, result_of (do_POST w req) = Responded r →
         r = send_error_response 500 (JStr "Missing OPENAI_API_KEY")
         ∨ r = send_error_response 400 (JStr "Missing workflow id").
Proof.
  intros Hreq.
  destruct (do_POST_cases w req)
    as [[_ ->]|[(_ & e & _ & ->)|[(_ & _ & ->)
       |[(_ & v & s & _ & _ & _ & ->)|(_ & k & v & _ & _ & _ & Hok & _)]]]];
    cbn [calls result_of]; try (split; [done|]; intros r [= <-]; auto);
    try (by split).
  congruence.
Qed.

Lemma rejected_url_never_calls_witness :
  calls (do_POST (Sample.world Sample.schemeless_base
                    (UpResponse Sample.txt_secret))
                 (Sample.post None "")) = []
  ∧ ∀ r,
      result_of (do_POST (Sample.world Sample.schemeless_base
                            (UpResponse Sample.txt_secret))
                         (Sample.post None "")) = Responded r →
      r = send_error_response 500 (JStr "Missing OPENAI_API_KEY")
      ∨ r = send_error_response 400 (JStr "Missing workflow id").
Proof.
  apply (rejected_url_never_calls
           (Sample.world Sample.schemeless_base (UpResponse Sample.txt_secret))
           (Sample.post None "")
           "unknown url type: 'api.openai.com/v1/chatkit/sessions'").
  reflexivity.
Defined.

Example schemeless_base_raises :
  do_POST (Sample.world Sample.schemeless_base (UpResponse Sample.txt_secret))
          (Sample.post None "")
  = {| calls := [];
       result_of :=
         Unhandled
           (Exc ValueError
              "unknown url type: 'api.openai.com/v1/chatkit/sessions'") |}.
Proof. vm_compute. reflexivity. Qed.
